(** * Go-Minio: an HTTP facade over an object store

  A shallow embedding of [main.go]: the five request/response handlers
  ([uploadFileHandler], [modifyFileHandler], [deleteFileHandler],
  [listFilesHandler], [getPresignedURLHandler]) and the server-sent-events
  bridge [watchBucketHandler].

  The handlers are thin glue between three libraries, and the embedding
  follows that split:
  - the pure helpers of the Go standard library that the handlers call
    ([strings.TrimPrefix], [http.Error], [fmt.Fprintf], [encoding/json]) are
    written out as functions;
  - what the outside world decides is an input: the outcome of parsing the
    multipart body is part of the [Request], the object store behind
    [minio.Client] is a record of operations over an abstract store, and
    the order in which the [select] of the watch loop wakes up is a trace;
  - every call made on the client is recorded in a call log, so that
    "before any backend call" is a statement about that log.

  [main], with its configuration and the bucket it prepares, and the
  download handler of the earlier revision come after the handlers.

  Left out: the routing of paths to handlers by the server,
  [defer file.Close()] and [defer object.Close()], and the time stamps
  that [log] puts before each line. *)

From Stdlib Require Import ZArith String Ascii List Lia.
From stdpp Require Import gmap strings pretty.

Open Scope string_scope.
Open Scope list_scope.
Open Scope Z_scope.

(** ** Go values *)

Module Go.

(** A Go [error] is observed by the handlers only through [%v] / [%s],
    that is through its [Error()] text. *)
Definition error : Type := string.

(** A slice is either [nil] or backed by an array; [encoding/json] tells
    the two apart, so the model does too. *)
Inductive slice (A : Type) : Type :=
| nil_slice : slice A
| mk_slice : list A -> slice A.
Arguments nil_slice {A}.
Arguments mk_slice {A} _.

Definition elems {A} (s : slice A) : list A :=
  match s with
  | nil_slice => []
  | mk_slice l => l
  end.

(** [append(s, x)]: appending to a nil slice allocates. *)
Definition append {A} (s : slice A) (x : A) : slice A :=
  mk_slice (elems s ++ [x]).

Definition LF : string := String "010"%char EmptyString.
Definition DQUOTE : string := String "034"%char EmptyString.
Definition BACKSLASH : string := String "092"%char EmptyString.

(** [strings.TrimPrefix(s, prefix)] *)
Definition TrimPrefix (s prefix : string) : string :=
  if String.prefix prefix s
  then String.substring (String.length prefix)
         (String.length s - String.length prefix) s
  else s.

(** [time.Duration] counts nanoseconds. *)
Definition Minute : Z := 60 * 1000000000.

End Go.

Import Go.

(** ** encoding/json, for the three shapes the handlers encode *)

Module json.

Definition hex (n : N) : string :=
  String.substring (N.to_nat n) 1 "0123456789abcdef".

Definition u00 (n : N) : string :=
  BACKSLASH +:+ "u00" +:+ hex (n / 16) +:+ hex (n mod 16).

(** One byte of a string value. The encoder escapes the quote, the
    backslash, the control characters and, because HTML escaping is on by
    default, the characters <, > and &. Bytes from 0x80 up are copied, which
    is what the encoder does for well-formed UTF-8 other than U+2028 and
    U+2029. *)
Definition escape (c : ascii) : string :=
  let n := N_of_ascii c in
  if (n =? 34)%N then BACKSLASH +:+ DQUOTE
  else if (n =? 92)%N then BACKSLASH +:+ BACKSLASH
  else if (n =? 8)%N then BACKSLASH +:+ "b"
  else if (n =? 12)%N then BACKSLASH +:+ "f"
  else if (n =? 10)%N then BACKSLASH +:+ "n"
  else if (n =? 13)%N then BACKSLASH +:+ "r"
  else if (n =? 9)%N then BACKSLASH +:+ "t"
  else if (n <? 32)%N then u00 n
  else if ((n =? 60) || (n =? 62) || (n =? 38))%N then u00 n
  else String c EmptyString.

Fixpoint escape_all (s : string) : string :=
  match s with
  | EmptyString => EmptyString
  | String c s' => escape c +:+ escape_all s'
  end.

Definition quote (s : string) : string :=
  DQUOTE +:+ escape_all s +:+ DQUOTE.

Fixpoint join (sep : string) (l : list string) : string :=
  match l with
  | [] => EmptyString
  | [x] => x
  | x :: l' => x +:+ sep +:+ join sep l'
  end.

(** [json.Marshal] of a [[]string]: a nil slice is [null], any other
    slice is an array. *)
Definition Marshal_strings (s : slice string) : string :=
  match s with
  | nil_slice => "null"
  | mk_slice l => "[" +:+ join "," (List.map quote l) +:+ "]"
  end.

(** [json.Marshal] of the one-entry [map[string]string{key: value}]. *)
Definition Marshal_map1 (key value : string) : string :=
  "{" +:+ quote key +:+ ":" +:+ quote value +:+ "}".

(** [json.NewEncoder(w).Encode(v)] writes the value and a newline. *)
Definition Encode_line (marshalled : string) : string :=
  marshalled +:+ LF.

End json.

(** ** net/http: status codes, the response writer, the request *)

Module http.

Definition MethodGet : string := "GET".
Definition MethodPost : string := "POST".
Definition MethodPut : string := "PUT".
Definition MethodDelete : string := "DELETE".

Definition StatusOK : Z := 200.
Definition StatusCreated : Z := 201.
Definition StatusBadRequest : Z := 400.
Definition StatusNotFound : Z := 404.
Definition StatusMethodNotAllowed : Z := 405.
Definition StatusInternalServerError : Z := 500.

(** What reaches the connection, in order: chunks of body and flushes. *)
Inductive Action : Type :=
| Wrote (s : string)
| Flushed.

(** [http.ResponseWriter]. [status] is [None] until the status line is
    committed; [flusher] tells whether the writer also implements
    [http.Flusher]. *)
Record ResponseWriter : Type := {
  header : gmap string (list string);
  status : option Z;
  wire : list Action;
  flusher : bool
}.

Definition NewResponseWriter (canFlush : bool) : ResponseWriter :=
  {| header := ∅; status := None; wire := []; flusher := canFlush |}.

(** [w.Header().Set(k, v)] *)
Definition Header_Set (w : ResponseWriter) (k v : string) : ResponseWriter :=
  {| header := <[k := [v]]> (header w); status := status w;
     wire := wire w; flusher := flusher w |}.

(** [w.Header().Del(k)] *)
Definition Header_Del (w : ResponseWriter) (k : string) : ResponseWriter :=
  {| header := delete k (header w); status := status w;
     wire := wire w; flusher := flusher w |}.

(** [w.WriteHeader(code)]: only the first call commits a status. *)
Definition WriteHeader (w : ResponseWriter) (code : Z) : ResponseWriter :=
  match status w with
  | Some _ => w
  | None => {| header := header w; status := Some code;
               wire := wire w; flusher := flusher w |}
  end.

(** [w.Write(s)]: a write before [WriteHeader] commits 200. *)
Definition Write (w : ResponseWriter) (s : string) : ResponseWriter :=
  let w' := WriteHeader w StatusOK in
  {| header := header w'; status := status w';
     wire := wire w' ++ [Wrote s]; flusher := flusher w' |}.

(** [flusher.Flush()]: also commits 200 if nothing was committed yet. *)
Definition Flush (w : ResponseWriter) : ResponseWriter :=
  let w' := WriteHeader w StatusOK in
  {| header := header w'; status := status w';
     wire := wire w' ++ [Flushed]; flusher := flusher w' |}.

(** [http.Error(w, msg, code)] *)
Definition Error (w : ResponseWriter) (msg : string) (code : Z) : ResponseWriter :=
  let w := Header_Del w "Content-Length" in
  let w := Header_Set w "Content-Type" "text/plain; charset=utf-8" in
  let w := Header_Set w "X-Content-Type-Options" "nosniff" in
  let w := WriteHeader w code in
  Write w (msg +:+ LF).

(** The body of the response: all chunks written, in order. *)
Fixpoint chunks (l : list Action) : string :=
  match l with
  | [] => EmptyString
  | Wrote s :: l' => s +:+ chunks l'
  | Flushed :: l' => chunks l'
  end.

Definition body (w : ResponseWriter) : string := chunks (wire w).

(** The content of an uploaded part, as read from [multipart.File]. *)
Definition File : Type := list Byte.byte.

(** [textproto.MIMEHeader] and its [Get]: first value or the empty string. *)
Definition MIMEHeader : Type := gmap string (list string).

Definition MIMEHeader_Get (h : MIMEHeader) (k : string) : string :=
  match h !! k with
  | Some (v :: _) => v
  | _ => EmptyString
  end.

(** [multipart.FileHeader] *)
Record FileHeader : Type := {
  Filename : string;
  Header : MIMEHeader;
  Size : Z
}.

(** [*http.Request], as far as the handlers look at it. The body is seen
    only through the two library calls made on it, so the request carries
    their outcomes: [ParseMultipartForm maxMemory] is the error of
    [r.ParseMultipartForm(maxMemory)] ([None] for [nil]) and [FormFile key]
    the result of [r.FormFile(key)] on the parsed form. [ContentLength] is
    the size of the body in bytes; no handler reads it. *)
Record Request : Type := {
  Method : string;
  URL_Path : string;
  ContentLength : Z;
  ParseMultipartForm : Z -> option error;
  FormFile : string -> (File * FileHeader) + error
}.

End http.

Import http.

(** ** minio-go: the client and what it talks to *)

Module minio.

(** One element of the channel returned by [ListObjects]. *)
Record ObjectInfo : Type := {
  Key : string;
  Err : option error
}.

Record PutObjectOptions : Type := {
  ContentType : string
}.

(** The calls the handlers make on the client, with their arguments. *)
Inductive Call : Type :=
| CallPutObject (bucket objectName : string) (reader : File) (objectSize : Z)
    (opts : PutObjectOptions)
| CallRemoveObject (bucket objectName : string)
| CallListObjects (bucket : string)
| CallPresignedGetObject (bucket objectName : string) (expiry : Z)
| CallListenBucketNotification (bucket prefix suffix : string)
    (events : list string).

(** [*minio.Client] over a remote store of type [Store]. Each operation
    reads the store and, for the two mutations, returns the store it leaves
    behind together with the error ([None] for [nil]). [ListObjects] gives
    the elements that the returned channel delivers before it is closed. *)
Record Client (Store : Type) : Type := {
  PutObject : Store -> string -> string -> File -> Z -> PutObjectOptions ->
              option error * Store;
  RemoveObject : Store -> string -> string -> option error * Store;
  ListObjects : Store -> string -> list ObjectInfo;
  PresignedGetObject : Store -> string -> string -> Z -> string + error
}.
Arguments PutObject {Store} _ _ _ _ _ _ _.
Arguments RemoveObject {Store} _ _ _ _.
Arguments ListObjects {Store} _ _ _.
Arguments PresignedGetObject {Store} _ _ _ _ _.

End minio.

Module notification.

(** [notification.Info]: a record set, or an error of the subscription.
    The element type [Event] of the record set is the library's. *)
Record Info (Event : Type) : Type := {
  Records : slice Event;
  Err : option error
}.
Arguments Records {Event} _.
Arguments Err {Event} _.

End notification.

(** ** The world a handler runs in *)

(** The store behind the client, the calls made on the client so far and
    the lines handed to [log]. *)
Record World (Store : Type) : Type := {
  store : Store;
  calls : list minio.Call;
  logs : list string
}.
Arguments store {Store} _.
Arguments calls {Store} _.
Arguments logs {Store} _.

Definition log_Print {Store} (env : World Store) (line : string) : World Store :=
  {| store := store env; calls := calls env; logs := logs env ++ [line] |}.

Definition called {Store} (env : World Store) (c : minio.Call) (s : Store)
  : World Store :=
  {| store := s; calls := calls env ++ [c]; logs := logs env |}.

(** [MinioHandler] holds the MinIO client and bucket name. *)
Record MinioHandler (Store : Type) : Type := {
  minioClient : minio.Client Store;
  bucketName : string
}.
Arguments minioClient {Store} _.
Arguments bucketName {Store} _.

(** What one wake-up of the [select] in the watch loop found. *)
Inductive Wake (Event : Type) : Type :=
| Received (notification : notification.Info Event)
| ContextDone.
Arguments Received {Event} _.
Arguments ContextDone {Event}.

(** Whether the watch handler has returned, or is blocked in [select]
    because the trace of wake-ups seen so far is used up. *)
Inductive Session : Type :=
| Waiting
| Returned.

(** ** The handlers of main.go *)

Section Handlers.

Context {Store : Type}.
Context {Event : Type}.

(** [json.Marshal] on a record set of the subscription. *)
Variable Marshal_Records : slice Event -> string + error.

Definition getPresignedURLHandler (h : MinioHandler Store)
    (w : ResponseWriter) (r : Request) (env : World Store)
  : ResponseWriter * World Store :=
  if negb (String.eqb (Method r) MethodGet) then
    (http.Error w "Method not allowed" StatusMethodNotAllowed, env)
  else
    let objectName := TrimPrefix (URL_Path r) "/get-download-link/" in
    if String.eqb objectName EmptyString then
      (http.Error w
         "Object name is required in the URL path (e.g., /get-download-link/my-image.jpg)"
         StatusBadRequest, env)
    else
      let expiry := 5 * Minute in
      let env := called env
        (minio.CallPresignedGetObject (bucketName h) objectName expiry)
        (store env) in
      match minio.PresignedGetObject (minioClient h) (store env)
              (bucketName h) objectName expiry with
      | inr err =>
          let env := log_Print env
            ("Error generating presigned URL for '" +:+ objectName +:+ "': "
             +:+ err) in
          (http.Error w "File not found or access denied" StatusNotFound, env)
      | inl presignedURL =>
          let response := json.Marshal_map1 "url" presignedURL in
          let w := Header_Set w "Content-Type" "application/json" in
          let w := WriteHeader w StatusOK in
          (Write w (json.Encode_line response), env)
      end.

Definition processAndUploadFile (h : MinioHandler Store)
    (w : ResponseWriter) (r : Request) (objectName : string)
    (env : World Store)
  : ResponseWriter * World Store :=
  match ParseMultipartForm r (Z.shiftl 10 20) with
  | Some _ =>
      (http.Error w "Could not parse multipart form" StatusBadRequest, env)
  | None =>
      match FormFile r "file" with
      | inr _ =>
          (http.Error w "Could not retrieve file from form-data"
             StatusBadRequest, env)
      | inl (file, header) =>
          let objectName :=
            if String.eqb objectName EmptyString then Filename header
            else objectName in
          let contentType := MIMEHeader_Get (Header header) "Content-Type" in
          let opts := {| minio.ContentType := contentType |} in
          let (err, s) :=
            minio.PutObject (minioClient h) (store env) (bucketName h)
              objectName file (Size header) opts in
          let env := called env
            (minio.CallPutObject (bucketName h) objectName file (Size header)
               opts) s in
          match err with
          | Some err =>
              let env := log_Print env
                ("Error uploading file to MinIO: " +:+ err) in
              (http.Error w "Failed to upload file"
                 StatusInternalServerError, env)
          | None =>
              let w := WriteHeader w StatusCreated in
              (Write w ("Successfully processed '" +:+ objectName
                        +:+ "' in bucket '" +:+ bucketName h +:+ "'." +:+ LF),
               env)
          end
      end
  end.

Definition uploadFileHandler (h : MinioHandler Store)
    (w : ResponseWriter) (r : Request) (env : World Store)
  : ResponseWriter * World Store :=
  if negb (String.eqb (Method r) MethodPost) then
    (http.Error w "Method not allowed" StatusMethodNotAllowed, env)
  else processAndUploadFile h w r EmptyString env.

Definition modifyFileHandler (h : MinioHandler Store)
    (w : ResponseWriter) (r : Request) (env : World Store)
  : ResponseWriter * World Store :=
  if negb (String.eqb (Method r) MethodPut) then
    (http.Error w "Method not allowed" StatusMethodNotAllowed, env)
  else
    let objectName := TrimPrefix (URL_Path r) "/modify/" in
    if String.eqb objectName EmptyString then
      (http.Error w
         "Object name is required in the URL path (e.g., /modify/myfile.png)"
         StatusBadRequest, env)
    else processAndUploadFile h w r objectName env.

Definition deleteFileHandler (h : MinioHandler Store)
    (w : ResponseWriter) (r : Request) (env : World Store)
  : ResponseWriter * World Store :=
  if negb (String.eqb (Method r) MethodDelete) then
    (http.Error w "Method not allowed" StatusMethodNotAllowed, env)
  else
    let objectName := TrimPrefix (URL_Path r) "/delete/" in
    if String.eqb objectName EmptyString then
      (http.Error w "Object name is required" StatusBadRequest, env)
    else
      let (err, s) :=
        minio.RemoveObject (minioClient h) (store env) (bucketName h)
          objectName in
      let env := called env
        (minio.CallRemoveObject (bucketName h) objectName) s in
      match err with
      | Some err =>
          let env := log_Print env ("Error removing object: " +:+ err) in
          (http.Error w "Failed to delete file" StatusInternalServerError,
           env)
      | None =>
          (Write w ("Successfully deleted '" +:+ objectName
                    +:+ "' from bucket '" +:+ bucketName h +:+ "'." +:+ LF),
           env)
      end.

(** The [for object := range objectCh] loop of [listFilesHandler]: the
    names collected so far, or the first error met. *)
Fixpoint rangeObjects (objectCh : list minio.ObjectInfo)
    (fileList : slice string) : slice string + error :=
  match objectCh with
  | [] => inl fileList
  | object :: objectCh' =>
      match minio.Err object with
      | Some err => inr err
      | None => rangeObjects objectCh' (append fileList (minio.Key object))
      end
  end.

Definition listFilesHandler (h : MinioHandler Store)
    (w : ResponseWriter) (r : Request) (env : World Store)
  : ResponseWriter * World Store :=
  if negb (String.eqb (Method r) MethodGet) then
    (http.Error w "Method not allowed" StatusMethodNotAllowed, env)
  else
    let fileList : slice string := nil_slice in
    let objectCh :=
      minio.ListObjects (minioClient h) (store env) (bucketName h) in
    let env := called env (minio.CallListObjects (bucketName h))
                 (store env) in
    match rangeObjects objectCh fileList with
    | inr err =>
        let env := log_Print env ("Error listing object: " +:+ err) in
        (http.Error w "Failed to list files" StatusInternalServerError, env)
    | inl fileList =>
        let w := Header_Set w "Content-Type" "application/json" in
        (Write w (json.Encode_line (json.Marshal_strings fileList)), env)
    end.

(** The [for { select { ... } }] loop of [watchBucketHandler], run on the
    wake-ups in the order they happen. *)
Fixpoint watchLoop (w : ResponseWriter) (env : World Store)
    (wakes : list (Wake Event)) : ResponseWriter * World Store * Session :=
  match wakes with
  | [] => (w, env, Waiting)
  | Received notification :: wakes' =>
      match notification.Err notification with
      | Some err =>
          let env := log_Print env
            ("Error in bucket notification: " +:+ err) in
          let w := Write w
            ("event: error" +:+ LF +:+ "data: " +:+ err +:+ LF +:+ LF) in
          (Flush w, env, Returned)
      | None =>
          match Marshal_Records (notification.Records notification) with
          | inr err =>
              let env := log_Print env
                ("Error marshaling notification: " +:+ err) in
              watchLoop w env wakes'
          | inl jsonData =>
              let w := Write w ("data: " +:+ jsonData +:+ LF +:+ LF) in
              watchLoop (Flush w) env wakes'
          end
      end
  | ContextDone :: _ =>
      (w, log_Print env "SSE client disconnected.", Returned)
  end.

Definition watchBucketHandler (h : MinioHandler Store)
    (w : ResponseWriter) (r : Request) (env : World Store)
    (wakes : list (Wake Event)) : ResponseWriter * World Store * Session :=
  let w := Header_Set w "Content-Type" "text/event-stream" in
  let w := Header_Set w "Cache-Control" "no-cache" in
  let w := Header_Set w "Connection" "keep-alive" in
  if negb (flusher w) then
    (http.Error w "Streaming unsupported!" StatusInternalServerError, env,
     Returned)
  else
    let env := called env
      (minio.CallListenBucketNotification (bucketName h) EmptyString
         EmptyString ["s3:ObjectCreated:*"; "s3:ObjectRemoved:*"])
      (store env) in
    let env := log_Print env
      "SSE connection established. Watching for bucket events..." in
    let w := Write w (": connection established" +:+ LF +:+ LF) in
    let w := Flush w in
    watchLoop w env wakes.

End Handlers.

(** ** The storage port *)

(** What the handlers rely on from the object store, relative to a notion
    [present s bucket key] of the object being in the bucket: removing a
    key that is not there is reported as success, a removal reported as
    success leaves the key absent, a listing delivers only keys that are
    there, and a read grant is signed exactly for the keys that are
    there. *)
Record StoragePort {Store : Type} (c : minio.Client Store)
    (present : Store -> string -> string -> Prop) : Prop := {
  remove_absent_ok : forall s bucket key,
    key <> EmptyString -> ~ present s bucket key ->
    fst (minio.RemoveObject c s bucket key) = None;
  remove_removes : forall s bucket key,
    fst (minio.RemoveObject c s bucket key) = None ->
    ~ present (snd (minio.RemoveObject c s bucket key)) bucket key;
  list_present : forall s bucket o,
    In o (minio.ListObjects c s bucket) -> minio.Err o = None ->
    present s bucket (minio.Key o);
  presign_absent : forall s bucket key ttl,
    ~ present s bucket key ->
    exists err, minio.PresignedGetObject c s bucket key ttl = inr err;
  presign_present : forall s bucket key ttl,
    present s bucket key ->
    exists url, minio.PresignedGetObject c s bucket key ttl = inl url
}.

(** An object store held in memory: one bucket, a finite map from keys to
    objects. Object names must not be empty, removing a key that is not
    there succeeds, and a read grant is refused for a key that is not there,
    as the storage port has it. It is the store the examples below run the
    handlers on. *)
Module MemStore.

Record Object : Type := {
  data : File;
  size : Z;
  contentType : string
}.

Definition PutObject (s : gmap string Object) (bucket objectName : string)
    (reader : File) (objectSize : Z) (opts : minio.PutObjectOptions)
  : option error * gmap string Object :=
  if String.eqb objectName EmptyString
  then (Some "Object name cannot be empty", s)
  else (None,
        <[objectName := {| data := reader; size := objectSize;
                           contentType := minio.ContentType opts |}]> s).

Definition RemoveObject (s : gmap string Object) (bucket objectName : string)
  : option error * gmap string Object :=
  if String.eqb objectName EmptyString
  then (Some "Object name cannot be empty", s)
  else (None, delete objectName s).

Definition ListObjects (s : gmap string Object) (bucket : string)
  : list minio.ObjectInfo :=
  List.map (fun kv => {| minio.Key := fst kv; minio.Err := None |})
    (map_to_list s).

Definition PresignedGetObject (s : gmap string Object)
    (bucket objectName : string) (expiry : Z) : string + error :=
  match s !! objectName with
  | Some _ =>
      inl ("https://minio.example/" +:+ bucket +:+ "/" +:+ objectName
           +:+ "?X-Amz-Expires=300&X-Amz-Signature=5d41")
  | None => inr "The specified key does not exist."
  end.

Definition client : minio.Client (gmap string Object) :=
  {| minio.PutObject := PutObject;
     minio.RemoveObject := RemoveObject;
     minio.ListObjects := ListObjects;
     minio.PresignedGetObject := PresignedGetObject |}.

Definition present (s : gmap string Object) (bucket key : string) : Prop :=
  is_Some (s !! key).

Definition handler : MinioHandler (gmap string Object) :=
  {| minioClient := client; bucketName := "testbucket" |}.

Definition world (s : gmap string Object) : World (gmap string Object) :=
  {| store := s; calls := []; logs := [] |}.

End MemStore.


(** The call that [processAndUploadFile] makes on the client for the
    object name [key] and the uploaded part [(file, header)]. *)
Definition putCall {Store} (h : MinioHandler Store) (key : string)
    (file : File) (header : FileHeader) : minio.Call :=
  minio.CallPutObject (bucketName h) key file (Size header)
    {| minio.ContentType := MIMEHeader_Get (Header header) "Content-Type" |}.

(** A response is a client error when its status is one of the 4xx. *)
Definition clientError (w : ResponseWriter) : Prop :=
  exists code, status w = Some code /\ 400 <= code < 500.

(** ** Requests and payloads used in the examples *)

Module Examples.

(** A request whose body parses as a multipart form holding one part named
    [file]. *)
Definition multipart (method path : string) (length : Z) (file : File)
    (header : FileHeader) : Request :=
  {| Method := method;
     URL_Path := path;
     ContentLength := length;
     ParseMultipartForm := fun _ => None;
     FormFile := fun key =>
       if String.eqb key "file" then inl (file, header)
       else inr "http: no such file" |}.

(** A request whose body parses as a multipart form without a [file]
    part. *)
Definition multipartNoFile (method path : string) : Request :=
  {| Method := method;
     URL_Path := path;
     ContentLength := 138;
     ParseMultipartForm := fun _ => None;
     FormFile := fun _ => inr "http: no such file" |}.

(** A request without a multipart body. *)
Definition bare (method path : string) : Request :=
  {| Method := method;
     URL_Path := path;
     ContentLength := 0;
     ParseMultipartForm := fun _ =>
       Some "request Content-Type isn't multipart/form-data";
     FormFile := fun _ => inr "http: no such file" |}.

Definition octetStream : MIMEHeader :=
  {[ "Content-Type" := ["application/octet-stream"] ]}.

(** A small file, [hi]. *)
Definition smallFile : File := [Byte.x68; Byte.x69].

Definition named (name : string) (file : File) : FileHeader :=
  {| Filename := name; Header := octetStream;
     Size := Z.of_nat (List.length file) |}.





Definition report : gmap string MemStore.Object :=
  {[ "report.pdf" :=
       {| MemStore.data := smallFile; MemStore.size := 2;
          MemStore.contentType := "application/pdf" |} ]}.

(** One record of a notification, cut down to the event name and the
    object key, and the JSON of a record set of such records. *)
Record Event : Type := {
  EventName : string;
  ObjectKey : string
}.

Definition Marshal_Event (e : Event) : string :=
  "{" +:+ json.quote "EventName" +:+ ":" +:+ json.quote (EventName e)
  +:+ "," +:+ json.quote "Key" +:+ ":" +:+ json.quote (ObjectKey e) +:+ "}".

Definition Marshal_Records (records : slice Event) : string + error :=
  match records with
  | nil_slice => inl "null"
  | mk_slice l => inl ("[" +:+ json.join "," (List.map Marshal_Event l) +:+ "]")
  end.

Definition created (key : string) : notification.Info Event :=
  {| notification.Records :=
       mk_slice [{| EventName := "s3:ObjectCreated:Put"; ObjectKey := key |}];
     notification.Err := None |}.

Definition broken : notification.Info Event :=
  {| notification.Records := nil_slice;
     notification.Err := Some "unexpected EOF" |}.

End Examples.

(** ** The frames of the event stream *)

(** The comment frame that opens the stream, the frame of one record set
    and the frame of a subscription error, as [fmt.Fprintf] lays them
    out. *)
Definition establishedFrame : string :=
  ": connection established" +:+ LF +:+ LF.

Definition dataFrame (jsonData : string) : string :=
  "data: " +:+ jsonData +:+ LF +:+ LF.

Definition errorFrame (err : error) : string :=
  "event: error" +:+ LF +:+ "data: " +:+ err +:+ LF +:+ LF.

(** The one subscription a watch session opens. *)
Definition listenCall (bucket : string) : minio.Call :=
  minio.CallListenBucketNotification bucket EmptyString EmptyString
    ["s3:ObjectCreated:*"; "s3:ObjectRemoved:*"].

(** ** Vocabulary for the properties of the handlers *)

(** The answer written on [w]: the writer [w'] has committed [code] and
    has put exactly the one line [msg] on the wire after what was there. *)
Definition answered (w w' : ResponseWriter) (code : Z) (msg : string) : Prop :=
  status w' = Some code /\ wire w' = wire w ++ [Wrote (msg +:+ LF)].

(** The texts that the request/response handlers pass to [http.Error]. *)
Definition errorTexts : list string :=
  [ "Method not allowed";
    "Object name is required in the URL path (e.g., /get-download-link/my-image.jpg)";
    "File not found or access denied";
    "Could not parse multipart form";
    "Could not retrieve file from form-data";
    "Failed to upload file";
    "Object name is required in the URL path (e.g., /modify/myfile.png)";
    "Object name is required";
    "Failed to delete file";
    "Failed to list files" ].

(** The calls that change the bucket. *)
Definition isMutation (c : minio.Call) : bool :=
  match c with
  | minio.CallPutObject _ _ _ _ _ => true
  | minio.CallRemoveObject _ _ => true
  | _ => false
  end.

(** A wire on which every chunk written is followed at once by a flush. *)
Fixpoint flushedChunks (l : list Action) : bool :=
  match l with
  | [] => true
  | Wrote _ :: Flushed :: l' => flushedChunks l'
  | _ => false
  end.

(** The number of chunks written on a wire. *)
Definition chunkCount (l : list Action) : nat :=
  List.length (List.filter (fun a => match a with Wrote _ => true
                                     | Flushed => false end) l).

(** ** [main]: configuration and the bucket at start-up *)

Module startup.

Inductive BucketLookupType : Type :=
| BucketLookupAuto
| BucketLookupDNS
| BucketLookupPath.

(** [credentials.NewStaticV4(id, secret, token)] *)
Record Credentials : Type := {
  AccessKeyID : string;
  SecretAccessKey : string;
  SessionToken : string
}.

(** [minio.Options], the fields [main] sets. *)
Record Options : Type := {
  Creds : Credentials;
  Secure : bool;
  BucketLookup : BucketLookupType
}.

(** The two bucket calls of [main]. *)
Inductive BucketCall : Type :=
| CallMakeBucket (bucket : string)
| CallBucketExists (bucket : string).

(** What [minio.New] returns on success: the client the handlers use,
    and the two bucket operations of that client that [main] uses. *)
Record Connection (Store : Type) : Type := {
  client : minio.Client Store;
  MakeBucket : Store -> string -> option error * Store;
  BucketExists : Store -> string -> bool * option error
}.
Arguments client {Store} _.
Arguments MakeBucket {Store} _ _ _.
Arguments BucketExists {Store} _ _ _.

(** The process [main] runs in: the result of [godotenv.Load()], the
    environment as [os.Getenv] reads it after that, [minio.New], and
    [http.ListenAndServe], which returns an error or ([None]) keeps
    serving. *)
Record Host (Store : Type) : Type := {
  godotenv_Load : option error;
  Getenv : string -> string;
  minio_New : string -> Options -> Connection Store + error;
  ListenAndServe : string -> option error
}.
Arguments godotenv_Load {Store} _.
Arguments Getenv {Store} _ _.
Arguments minio_New {Store} _ _ _.
Arguments ListenAndServe {Store} _ _.

(** The handler methods that [main] registers. *)
Inductive Route : Type :=
| uploadFileHandler
| modifyFileHandler
| deleteFileHandler
| listFilesHandler
| watchBucketHandler
| getPresignedURLHandler.

(** How [main] ends: in [log.Fatal], or serving with the handler value,
    the registered patterns and the listen address. *)
Inductive Exit (Store : Type) : Type :=
| Fatal
| Serving (handler : MinioHandler Store) (routes : list (string * Route))
    (addr : string).
Arguments Fatal {Store}.
Arguments Serving {Store} _ _ _.

(** A run of [main]: how it ends, the lines given to [log] (each without
    the newline that ends it), the bucket calls made and the store they
    leave. *)
Record Run (Store : Type) : Type := {
  exit : Exit Store;
  lines : list string;
  bucketCalls : list BucketCall;
  remote : Store
}.
Arguments exit {Store} _.
Arguments lines {Store} _.
Arguments bucketCalls {Store} _.
Arguments remote {Store} _.

Definition isEmpty (s : string) : bool := String.eqb s EmptyString.

(** The second half of [main], once the bucket is settled: the handler
    value, the routes, and the server. *)
Definition serve {Store : Type} (host : Host Store)
    (minioClient : Connection Store) (bucketName : string)
    (lines : list string) (bucketCalls : list BucketCall) (s : Store)
  : Run Store :=
  let handler :=
    {| minioClient := client minioClient;
       bucketName := bucketName |} in
  let routes :=
    [ ("/upload", uploadFileHandler);
      ("/modify/", modifyFileHandler);
      ("/delete/", deleteFileHandler);
      ("/list", listFilesHandler);
      ("/watch", watchBucketHandler);
      ("/get-download-link/", getPresignedURLHandler) ] in
  let port := "8080" in
  let lines := lines ++ ["Starting server on port " +:+ port +:+ "..."] in
  match ListenAndServe host (":" +:+ port) with
  | Some err =>
      {| exit := Fatal;
         lines := lines ++ ["Failed to start server: " +:+ err];
         bucketCalls := bucketCalls; remote := s |}
  | None =>
      {| exit := Serving handler routes (":" +:+ port);
         lines := lines; bucketCalls := bucketCalls; remote := s |}
  end.

Definition main {Store : Type} (host : Host Store) (s : Store) : Run Store :=
  let lines :=
    match godotenv_Load host with
    | Some _ =>
        ["Warning: Could not load .env file. Falling back to system environment variables."]
    | None => []
    end in
  let endpoint := Getenv host "MINIO_ENDPOINT" in
  let accessKeyID := Getenv host "MINIO_ACCESS_KEY" in
  let secretAccessKey := Getenv host "MINIO_SECRET_KEY" in
  let bucketName := Getenv host "MINIO_BUCKET" in
  let useSSL := true in
  if isEmpty endpoint || isEmpty accessKeyID || isEmpty secretAccessKey
     || isEmpty bucketName
  then
    {| exit := Fatal;
       lines := lines ++
         ["Error: MINIO_ENDPOINT, MINIO_ACCESS_KEY, MINIO_SECRET_KEY, and MINIO_BUCKET environment variables must be set."];
       bucketCalls := []; remote := s |}
  else
    match minio_New host endpoint
            {| Creds := {| AccessKeyID := accessKeyID;
                           SecretAccessKey := secretAccessKey;
                           SessionToken := EmptyString |};
               Secure := useSSL;
               BucketLookup := BucketLookupPath |} with
    | inr err =>
        {| exit := Fatal;
           lines := lines ++ ["Error initializing MinIO client: " +:+ err];
           bucketCalls := []; remote := s |}
    | inl minioClient =>
        let lines := lines ++
          ["Successfully connected to MinIO at " +:+ endpoint] in
        let (err, s1) := MakeBucket minioClient s bucketName in
        match err with
        | Some err =>
            let (exists_, errBucketExists) :=
              BucketExists minioClient s1 bucketName in
            let bucketCalls :=
              [CallMakeBucket bucketName; CallBucketExists bucketName] in
            if match errBucketExists with
               | None => exists_
               | Some _ => false
               end
            then
              serve host minioClient bucketName
                (lines ++ ["Bucket '" +:+ bucketName +:+ "' already exists."])
                bucketCalls s1
            else
              {| exit := Fatal;
                 lines := lines ++
                   ["Error creating/checking bucket: " +:+ err];
                 bucketCalls := bucketCalls; remote := s1 |}
        | None =>
            serve host minioClient bucketName
              (lines ++
               ["Successfully created bucket '" +:+ bucketName +:+ "'."])
              [CallMakeBucket bucketName] s1
        end
    end.

End startup.

(** ** The download handler of the earlier main.go *)

(** The earlier revision of [main.go] served [/download/] by copying the
    object into the response; the current one replaced that route by the
    read grant. The handler reads the object through [GetObject], which the
    client of the other handlers is not asked for, so it is passed in. *)

Module object.

(** What [object.Stat()] tells, as far as the handler reads it. *)
Record StatInfo : Type := {
  ContentType : string;
  Size : Z
}.

(** [*minio.Object]: the result of [Stat], and what reading the object
    delivers, the chunks of successive reads and then [io.EOF] ([None]) or
    an error. *)
Record Object : Type := {
  Stat : StatInfo + error;
  reads : list File;
  readErr : option error
}.

End object.

(** [io.Copy(w, src)]: every chunk read that is not empty is written, in
    order; the result is the error that ended the reading, [None] at
    [io.EOF]. *)
Fixpoint io_Copy (w : ResponseWriter) (reads : list File)
    (readErr : option error) : ResponseWriter * option error :=
  match reads with
  | [] => (w, readErr)
  | chunk :: reads' =>
      let w := match chunk with
               | [] => w
               | _ :: _ => Write w (String.string_of_list_byte chunk)
               end in
      io_Copy w reads' readErr
  end.

(** The status line the server sends for a writer: the one committed, or
    200 when the handler returned without committing any. *)
Definition sentStatus (w : ResponseWriter) : Z :=
  match status w with
  | Some code => code
  | None => StatusOK
  end.

(** What a copy puts on the wire for the chunks read. *)
Definition copied (reads : list File) : list Action :=
  flat_map (fun chunk => match chunk with
                         | [] => []
                         | _ :: _ => [Wrote (String.string_of_list_byte chunk)]
                         end) reads.

Section Download.

Context {Store : Type}.

(** [h.minioClient.GetObject(ctx, bucket, objectName, opts)] *)
Variable GetObject : Store -> string -> string -> object.Object + error.

Definition downloadFileHandler (h : MinioHandler Store)
    (w : ResponseWriter) (r : Request) (env : World Store)
  : ResponseWriter * World Store :=
  if negb (String.eqb (Method r) MethodGet) then
    (http.Error w "Method not allowed" StatusMethodNotAllowed, env)
  else
    let objectName := TrimPrefix (URL_Path r) "/download/" in
    if String.eqb objectName EmptyString then
      (http.Error w "Object name is required" StatusBadRequest, env)
    else
      match GetObject (store env) (bucketName h) objectName with
      | inr err =>
          let env := log_Print env ("Error getting object: " +:+ err) in
          (http.Error w "File not found" StatusNotFound, env)
      | inl object =>
          match object.Stat object with
          | inr _ =>
              (http.Error w "Could not get object stats"
                 StatusInternalServerError, env)
          | inl stat =>
              let w := Header_Set w "Content-Disposition"
                ("attachment; filename=" +:+ DQUOTE +:+ objectName
                 +:+ DQUOTE) in
              let w := Header_Set w "Content-Type"
                (object.ContentType stat) in
              let w := Header_Set w "Content-Length"
                (pretty (object.Size stat)) in
              let (w, err) :=
                io_Copy w (object.reads object) (object.readErr object) in
              match err with
              | Some _ =>
                  (http.Error w "Failed to write file to response"
                     StatusInternalServerError, env)
              | None => (w, env)
              end
          end
      end.

End Download.

(** ** More stores, hosts and objects for the examples *)

Module Samples.

(** A client whose listing breaks after the first object. *)
Definition flakyClient : minio.Client (gmap string MemStore.Object) :=
  {| minio.PutObject := MemStore.PutObject;
     minio.RemoveObject := MemStore.RemoveObject;
     minio.ListObjects := fun _ _ =>
       [ {| minio.Key := "a.txt"; minio.Err := None |};
         {| minio.Key := EmptyString;
            minio.Err := Some "connection reset by peer" |};
         {| minio.Key := "b.txt"; minio.Err := None |} ];
     minio.PresignedGetObject := MemStore.PresignedGetObject |}.

Definition flakyHandler : MinioHandler (gmap string MemStore.Object) :=
  {| minioClient := flakyClient; bucketName := "testbucket" |}.

(** A client whose store is out of reach: every operation fails. *)
Definition downClient : minio.Client (gmap string MemStore.Object) :=
  {| minio.PutObject := fun s _ _ _ _ _ => (Some "dial tcp: i/o timeout", s);
     minio.RemoveObject := fun s _ _ => (Some "dial tcp: i/o timeout", s);
     minio.ListObjects := fun _ _ =>
       [ {| minio.Key := EmptyString;
            minio.Err := Some "dial tcp: i/o timeout" |} ];
     minio.PresignedGetObject := fun _ _ _ _ =>
       inr "dial tcp: i/o timeout" |}.

Definition downHandler : MinioHandler (gmap string MemStore.Object) :=
  {| minioClient := downClient; bucketName := "testbucket" |}.

(** A marshaller that refuses a record set that is nil. *)
Definition strictMarshal (records : slice Examples.Event) : string + error :=
  match records with
  | nil_slice => inr "json: unsupported value"
  | mk_slice _ => Examples.Marshal_Records records
  end.

Definition hollow : notification.Info Examples.Event :=
  {| notification.Records := nil_slice; notification.Err := None |}.

(** Connections for [main]: one on which the bucket is already there, one
    on which neither the creation nor the check gets through. *)
Definition owned : startup.Connection (gmap string MemStore.Object) :=
  {| startup.client := MemStore.client;
     startup.MakeBucket := fun s _ =>
       (Some "Your previous request to create the named bucket succeeded and you already own it.", s);
     startup.BucketExists := fun _ _ => (true, None) |}.

Definition denied : startup.Connection (gmap string MemStore.Object) :=
  {| startup.client := MemStore.client;
     startup.MakeBucket := fun s _ => (Some "Access Denied.", s);
     startup.BucketExists := fun _ _ => (false, Some "Access Denied.") |}.

Definition environment (bucket : string) (name : string) : string :=
  if String.eqb name "MINIO_ENDPOINT" then "localhost:9000"
  else if String.eqb name "MINIO_ACCESS_KEY" then "minioadmin"
  else if String.eqb name "MINIO_SECRET_KEY" then "minioadmin"
  else if String.eqb name "MINIO_BUCKET" then bucket
  else EmptyString.

Definition host (bucket : string)
    (conn : startup.Connection (gmap string MemStore.Object))
  : startup.Host (gmap string MemStore.Object) :=
  {| startup.godotenv_Load := Some "open .env: no such file or directory";
     startup.Getenv := environment bucket;
     startup.minio_New := fun _ _ => inl conn;
     startup.ListenAndServe := fun _ => None |}.

(** [GetObject] on the in-memory store, and one whose reading breaks
    after the first chunk. *)
Definition getObject (s : gmap string MemStore.Object) (bucket key : string)
  : object.Object + error :=
  match s !! key with
  | Some o =>
      inl {| object.Stat :=
               inl {| object.ContentType := MemStore.contentType o;
                      object.Size := MemStore.size o |};
             object.reads := [MemStore.data o];
             object.readErr := None |}
  | None =>
      inl {| object.Stat := inr "The specified key does not exist.";
             object.reads := [];
             object.readErr := Some "The specified key does not exist." |}
  end.


Definition getNothing (s : gmap string MemStore.Object) (bucket key : string)
  : object.Object + error :=
  inr "Object name contains unsupported characters.".

(** A writer that cannot flush and one that can, both fresh, and the
    world the examples start from. *)
Definition plain : ResponseWriter := NewResponseWriter false.
Definition streaming : ResponseWriter := NewResponseWriter true.
Definition start : World (gmap string MemStore.Object) :=
  MemStore.world Examples.report.

Definition notes : Request :=
  Examples.multipart "POST" "/upload" 350 Examples.smallFile
    (Examples.named "notes.txt" Examples.smallFile).

End Samples.
(** ** Facts about the library helpers *)

Lemma prefix_app (p k : string) : String.prefix p (p +:+ k) = true.
Proof.
  induction p as [|c p IH]; simpl; [now destruct k |].
  destruct (ascii_dec c c); [exact IH | congruence].
Qed.

Lemma substring_all (k : string) :
  String.substring 0 (String.length k) k = k.
Proof. induction k as [|c k IH]; simpl; [reflexivity | now rewrite IH]. Qed.

Lemma substring_app (p k : string) :
  String.substring (String.length p)
    (String.length (p +:+ k) - String.length p) (p +:+ k) = k.
Proof.
  induction p as [|c p IH]; simpl.
  - rewrite Nat.sub_0_r. apply substring_all.
  - exact IH.
Qed.

(** Trimming a prefix off a path built from that prefix gives back the
    rest of the path. *)
Lemma TrimPrefix_app (p k : string) : TrimPrefix (p +:+ k) p = k.
Proof. unfold TrimPrefix. rewrite prefix_app. apply substring_app. Qed.

Lemma status_WriteHeader (w : ResponseWriter) (code : Z) :
  status w = None -> status (WriteHeader w code) = Some code.
Proof. intros H. unfold WriteHeader. now rewrite H. Qed.

Lemma status_Write_committed (w : ResponseWriter) (s : string) (code : Z) :
  status w = Some code -> status (Write w s) = Some code.
Proof. intros H. unfold Write, WriteHeader. simpl. now rewrite H. Qed.

Lemma status_Write_fresh (w : ResponseWriter) (s : string) :
  status w = None -> status (Write w s) = Some StatusOK.
Proof. intros H. unfold Write, WriteHeader. simpl. now rewrite H. Qed.

Lemma wire_WriteHeader (w : ResponseWriter) (code : Z) :
  wire (WriteHeader w code) = wire w.
Proof. unfold WriteHeader. now destruct (status w). Qed.

Lemma wire_Write (w : ResponseWriter) (s : string) :
  wire (Write w s) = wire w ++ [Wrote s].
Proof. unfold Write. simpl. now rewrite wire_WriteHeader. Qed.

Lemma wire_Flush (w : ResponseWriter) :
  wire (Flush w) = wire w ++ [Flushed].
Proof. unfold Flush. simpl. now rewrite wire_WriteHeader. Qed.

Lemma status_Flush_committed (w : ResponseWriter) (code : Z) :
  status w = Some code -> status (Flush w) = Some code.
Proof. intros H. unfold Flush, WriteHeader. simpl. now rewrite H. Qed.

(** [http.Error] on a writer that has committed nothing answers with the
    given code and writes the message as one line. *)
Lemma status_Error (w : ResponseWriter) (msg : string) (code : Z) :
  status w = None -> status (http.Error w msg code) = Some code.
Proof.
  intros H. unfold http.Error.
  apply status_Write_committed, status_WriteHeader. exact H.
Qed.

Lemma wire_Error (w : ResponseWriter) (msg : string) (code : Z) :
  wire (http.Error w msg code) = wire w ++ [Wrote (msg +:+ LF)].
Proof. unfold http.Error. now rewrite wire_Write, wire_WriteHeader. Qed.

(** The in-memory store honours the storage port. *)
Lemma MemStore_port : StoragePort MemStore.client MemStore.present.
Proof.
  split; unfold MemStore.present; simpl.
  - intros s bucket key Hkey _. unfold MemStore.RemoveObject.
    destruct (String.eqb_spec key EmptyString); [contradiction | reflexivity].
  - intros s bucket key. unfold MemStore.RemoveObject.
    destruct (String.eqb_spec key EmptyString); simpl; [discriminate |].
    intros _ [o Ho]. rewrite lookup_delete_eq in Ho. discriminate.
  - intros s bucket o Hin _. unfold MemStore.ListObjects in Hin.
    apply in_map_iff in Hin. destruct Hin as [[k v] [<- Hkv]]. simpl.
    exists v. apply elem_of_map_to_list. apply list_elem_of_In. exact Hkv.
  - intros s bucket key ttl Habs. unfold MemStore.PresignedGetObject.
    destruct (s !! key) as [o|] eqn:E; [| eauto].
    exfalso. apply Habs. eauto.
  - intros s bucket key ttl [o Ho]. unfold MemStore.PresignedGetObject.
    rewrite Ho. eauto.
Qed.


(** ** The upload path *)

Section Facade.

Context {Store : Type}.
Implicit Types (h : MinioHandler Store) (w : ResponseWriter).
Implicit Types (r : Request) (env : World Store).

Lemma process_unparsable h w r objectName env err :
  ParseMultipartForm r (Z.shiftl 10 20) = Some err ->
  processAndUploadFile h w r objectName env =
  (http.Error w "Could not parse multipart form" StatusBadRequest, env).
Proof. intros H. unfold processAndUploadFile. now rewrite H. Qed.

Lemma process_missing_file h w r objectName env err :
  ParseMultipartForm r (Z.shiftl 10 20) = None ->
  FormFile r "file" = inr err ->
  processAndUploadFile h w r objectName env =
  (http.Error w "Could not retrieve file from form-data" StatusBadRequest,
   env).
Proof. intros H1 H2. unfold processAndUploadFile. now rewrite H1, H2. Qed.

(** Once the form is parsed and holds a [file] part, the put is made: it
    is the one call added to the log, the store is the one the put leaves,
    and the answer is 201 or 500 after the put's error. *)
Lemma process_put h w r objectName env file header :
  status w = None ->
  ParseMultipartForm r (Z.shiftl 10 20) = None ->
  FormFile r "file" = inl (file, header) ->
  let key := if String.eqb objectName EmptyString then Filename header
             else objectName in
  let put := minio.PutObject (minioClient h) (store env) (bucketName h) key
               file (Size header)
               {| minio.ContentType :=
                    MIMEHeader_Get (Header header) "Content-Type" |} in
  let res := processAndUploadFile h w r objectName env in
  calls (snd res) = calls env ++ [putCall h key file header] /\
  store (snd res) = snd put /\
  status (fst res) =
    Some (match fst put with
          | Some _ => StatusInternalServerError
          | None => StatusCreated
          end).
Proof.
  intros Hw H1 H2 key put res. subst res. unfold processAndUploadFile.
  rewrite H1, H2. fold key. fold put.
  destruct put as [[err|] s]; cbn [fst snd calls store called log_Print];
    repeat split.
  - now apply status_Error.
  - now apply status_Write_committed, status_WriteHeader.
Qed.

(** The three answers of [processAndUploadFile]: 400 with nothing done,
    or 500 or 201 after exactly one call on the client. *)
Lemma process_outcome h w r objectName env :
  status w = None ->
  let res := processAndUploadFile h w r objectName env in
  (status (fst res) = Some StatusBadRequest /\ snd res = env) \/
  ((status (fst res) = Some StatusInternalServerError \/
    status (fst res) = Some StatusCreated) /\
   exists c, calls (snd res) = calls env ++ [c]).
Proof.
  intros Hw res. subst res.
  destruct (ParseMultipartForm r (Z.shiftl 10 20)) as [e|] eqn:H1.
  - left. rewrite (process_unparsable _ _ _ _ _ _ H1). cbn [fst snd].
    split; [now apply status_Error | reflexivity].
  - destruct (FormFile r "file") as [[file header]|e] eqn:H2.
    + right.
      destruct (process_put h w r objectName env file header Hw H1 H2)
        as (Hc & _ & Hs).
      split; [| eauto].
      rewrite Hs.
      destruct (fst (minio.PutObject _ _ _ _ _ _ _)); [left | right];
        reflexivity.
    + left. rewrite (process_missing_file _ _ _ _ _ _ H1 H2). cbn [fst snd].
      split; [now apply status_Error | reflexivity].
Qed.

(** Outcome of the two upload handlers and of the delete handler: a 405 or
    400 with the world untouched, or one call followed by 500 or by the
    success status. *)
Lemma upload_outcome h w r env :
  status w = None ->
  let res := uploadFileHandler h w r env in
  ((status (fst res) = Some StatusMethodNotAllowed \/
    status (fst res) = Some StatusBadRequest) /\ snd res = env) \/
  ((status (fst res) = Some StatusInternalServerError \/
    status (fst res) = Some StatusCreated) /\
   exists c, calls (snd res) = calls env ++ [c]).
Proof.
  intros Hw res. subst res. unfold uploadFileHandler.
  destruct (negb (String.eqb (Method r) MethodPost)).
  - left. cbn [fst snd]. split; [left; now apply status_Error | reflexivity].
  - destruct (process_outcome h w r EmptyString env Hw) as [[Hs He]|H].
    + left. auto.
    + right. exact H.
Qed.

Lemma modify_outcome h w r env :
  status w = None ->
  let res := modifyFileHandler h w r env in
  ((status (fst res) = Some StatusMethodNotAllowed \/
    status (fst res) = Some StatusBadRequest) /\ snd res = env) \/
  ((status (fst res) = Some StatusInternalServerError \/
    status (fst res) = Some StatusCreated) /\
   exists c, calls (snd res) = calls env ++ [c]).
Proof.
  intros Hw res. subst res. unfold modifyFileHandler.
  destruct (negb (String.eqb (Method r) MethodPut)).
  - left. cbn [fst snd]. split; [left; now apply status_Error | reflexivity].
  - cbv zeta.
    destruct (String.eqb (TrimPrefix (URL_Path r) "/modify/") EmptyString).
    + left. cbn [fst snd].
      split; [right; now apply status_Error | reflexivity].
    + destruct (process_outcome h w r
                  (TrimPrefix (URL_Path r) "/modify/") env Hw)
        as [[Hs He]|H].
      * left. auto.
      * right. exact H.
Qed.

Lemma delete_outcome h w r env :
  status w = None ->
  let res := deleteFileHandler h w r env in
  ((status (fst res) = Some StatusMethodNotAllowed \/
    status (fst res) = Some StatusBadRequest) /\ snd res = env) \/
  ((status (fst res) = Some StatusInternalServerError \/
    status (fst res) = Some StatusOK) /\
   exists c, calls (snd res) = calls env ++ [c]).
Proof.
  intros Hw res. subst res. unfold deleteFileHandler.
  destruct (negb (String.eqb (Method r) MethodDelete)).
  - left. cbn [fst snd]. split; [left; now apply status_Error | reflexivity].
  - cbv zeta.
    destruct (String.eqb (TrimPrefix (URL_Path r) "/delete/") EmptyString).
    + left. cbn [fst snd].
      split; [right; now apply status_Error | reflexivity].
    + right.
      destruct (minio.RemoveObject _ _ _ _) as [[err|] s];
        cbn [fst snd calls called log_Print].
      * split; [left; now apply status_Error | eauto].
      * split; [right; now apply status_Write_fresh | eauto].
Qed.

Lemma not_client_error w :
  status w = Some StatusInternalServerError \/
  status w = Some StatusCreated \/ status w = Some StatusOK ->
  ~ clientError w.
Proof.
  unfold StatusInternalServerError, StatusCreated, StatusOK.
  intros H [code [Hc Hr]]. rewrite Hc in H.
  destruct H as [H|[H|H]]; injection H as ->; lia.
Qed.

(** C9: a Create, Overwrite or Delete request that is answered with a
    client error (4xx: wrong method, empty key, unparsable multipart form,
    missing [file] field) leaves the world as it was: no call was made on
    the client, and the store is the one before the request. *)
Theorem client_error_precedes_backend h w r env :
  status w = None ->
  (clientError (fst (uploadFileHandler h w r env)) ->
   snd (uploadFileHandler h w r env) = env) /\
  (clientError (fst (modifyFileHandler h w r env)) ->
   snd (modifyFileHandler h w r env) = env) /\
  (clientError (fst (deleteFileHandler h w r env)) ->
   snd (deleteFileHandler h w r env) = env).
Proof.
  intros Hw. repeat split; intros Hce.
  - destruct (upload_outcome h w r env Hw) as [[_ He]|[Hs _]]; [exact He |].
    exfalso. revert Hce. apply not_client_error. tauto.
  - destruct (modify_outcome h w r env Hw) as [[_ He]|[Hs _]]; [exact He |].
    exfalso. revert Hce. apply not_client_error. tauto.
  - destruct (delete_outcome h w r env Hw) as [[_ He]|[Hs _]]; [exact He |].
    exfalso. revert Hce. apply not_client_error. tauto.
Qed.

(** The five request/response handlers turn a request with another
    method than their own away with 405, before anything else. *)
Lemma siblings_reject_wrong_method h w r env :
  (Method r <> MethodPost ->
   uploadFileHandler h w r env =
   (http.Error w "Method not allowed" StatusMethodNotAllowed, env)) /\
  (Method r <> MethodPut ->
   modifyFileHandler h w r env =
   (http.Error w "Method not allowed" StatusMethodNotAllowed, env)) /\
  (Method r <> MethodDelete ->
   deleteFileHandler h w r env =
   (http.Error w "Method not allowed" StatusMethodNotAllowed, env)) /\
  (Method r <> MethodGet ->
   listFilesHandler h w r env =
   (http.Error w "Method not allowed" StatusMethodNotAllowed, env)) /\
  (Method r <> MethodGet ->
   getPresignedURLHandler h w r env =
   (http.Error w "Method not allowed" StatusMethodNotAllowed, env)).
Proof.
  unfold uploadFileHandler, modifyFileHandler, deleteFileHandler,
    listFilesHandler, getPresignedURLHandler.
  repeat split; intros Hm;
    match goal with |- context [String.eqb (Method r) ?m] =>
      destruct (String.eqb_spec (Method r) m); [contradiction | reflexivity]
    end.
Qed.

End Facade.

(** ** Create and Overwrite *)

Section Uploads.

Context {Store : Type}.
Implicit Types (h : MinioHandler Store) (w : ResponseWriter).
Implicit Types (r : Request) (env : World Store).






End Uploads.

(** ** Delete, List and the read grant *)

Section Port.

Context {Store : Type}.
Variable present : Store -> string -> string -> Prop.
Implicit Types (h : MinioHandler Store) (w : ResponseWriter).
Implicit Types (r : Request) (env : World Store).

(** The loop of the list handler, when it ends without error, has appended
    the key of every element of the channel, in order, and none of the
    elements carried an error. *)
Lemma rangeObjects_ok (objectCh : list minio.ObjectInfo)
    (acc fileList : slice string) :
  rangeObjects objectCh acc = inl fileList ->
  elems fileList = elems acc ++ List.map minio.Key objectCh /\
  forall o, In o objectCh -> minio.Err o = None.
Proof.
  revert acc. induction objectCh as [|o l IH]; intros acc H; simpl in H.
  - injection H as <-. rewrite app_nil_r. split; [reflexivity | intros o []].
  - destruct (minio.Err o) as [e|] eqn:E; [discriminate |].
    apply IH in H. destruct H as [H1 H2]. split.
    + rewrite H1. simpl. now rewrite <- app_assoc.
    + intros o' [<-|Hin]; auto.
Qed.

(** What the list handler answers to a GET: 500 when the enumeration
    meets an error, otherwise 200 with the collected names as one line of
    JSON. *)
Lemma list_outcome h w r env :
  status w = None ->
  Method r = MethodGet ->
  let res := listFilesHandler h w r env in
  store (snd res) = store env /\
  match rangeObjects
          (minio.ListObjects (minioClient h) (store env) (bucketName h))
          nil_slice with
  | inr _ => status (fst res) = Some StatusInternalServerError
  | inl fileList =>
      status (fst res) = Some StatusOK /\
      wire (fst res) =
        wire w ++ [Wrote (json.Encode_line (json.Marshal_strings fileList))]
  end.
Proof.
  intros Hw Hm res. subst res. unfold listFilesHandler. rewrite Hm.
  change (negb (String.eqb MethodGet MethodGet)) with false.
  cbv iota zeta.
  destruct (rangeObjects _ _) as [fileList|e];
    cbn [fst snd store called log_Print].
  - split; [reflexivity |]. split.
    + now apply status_Write_fresh.
    + now rewrite wire_Write.
  - split; [reflexivity |]. now apply status_Error.
Qed.

(** Whatever the store, a listing that delivers nothing is answered with
    the line [null]. *)
Lemma empty_listing_is_null h w r env :
  status w = None ->
  Method r = MethodGet ->
  minio.ListObjects (minioClient h) (store env) (bucketName h) = [] ->
  status (fst (listFilesHandler h w r env)) = Some StatusOK /\
  wire (fst (listFilesHandler h w r env)) = wire w ++ [Wrote ("null" +:+ LF)].
Proof.
  intros Hw Hm Hl. destruct (list_outcome h w r env Hw Hm) as [_ H].
  rewrite Hl in H. exact H.
Qed.

(** What the delete handler answers to a DELETE on [/delete/key] with a
    non-empty key. *)
Lemma delete_unfold h w r env key :
  Method r = MethodDelete ->
  URL_Path r = "/delete/" +:+ key ->
  key <> EmptyString ->
  deleteFileHandler h w r env =
  let removed :=
    minio.RemoveObject (minioClient h) (store env) (bucketName h) key in
  let env' := called env (minio.CallRemoveObject (bucketName h) key)
                (snd removed) in
  match fst removed with
  | Some err =>
      (http.Error w "Failed to delete file" StatusInternalServerError,
       log_Print env' ("Error removing object: " +:+ err))
  | None =>
      (Write w ("Successfully deleted '" +:+ key +:+ "' from bucket '"
                +:+ bucketName h +:+ "'." +:+ LF), env')
  end.
Proof.
  intros Hm Hpath Hkey. unfold deleteFileHandler. rewrite Hm, Hpath.
  change (negb (String.eqb MethodDelete MethodDelete)) with false.
  cbv iota zeta. rewrite TrimPrefix_app.
  destruct (String.eqb_spec key EmptyString); [contradiction |].
  destruct (minio.RemoveObject _ _ _ _) as [[e|] s]; reflexivity.
Qed.

(** C6: the delete handler never answers 404; and over a store that
    honours the storage port, DELETE of a non-empty key that is not in the
    bucket is answered with 200, after the one remove call, and a List made
    right after it either fails with 500 or answers 200 with a list of
    names in which the key does not occur. *)
Theorem delete_absent_key_succeeds h w w2 r r2 env key :
  status w = None ->
  status w2 = None ->
  Method r2 = MethodGet ->
  status (fst (deleteFileHandler h w r env)) <> Some StatusNotFound /\
  (StoragePort (minioClient h) present ->
   Method r = MethodDelete ->
   URL_Path r = "/delete/" +:+ key ->
   key <> EmptyString ->
   ~ present (store env) (bucketName h) key ->
   let res := deleteFileHandler h w r env in
   let res2 := listFilesHandler h w2 r2 (snd res) in
   status (fst res) = Some StatusOK /\
   wire (fst res) =
     wire w ++ [Wrote ("Successfully deleted '" +:+ key +:+ "' from bucket '"
                       +:+ bucketName h +:+ "'." +:+ LF)] /\
   calls (snd res) =
     calls env ++ [minio.CallRemoveObject (bucketName h) key] /\
   (status (fst res2) = Some StatusInternalServerError \/
    exists fileList,
      ~ In key (elems fileList) /\
      status (fst res2) = Some StatusOK /\
      wire (fst res2) =
        wire w2
        ++ [Wrote (json.Encode_line (json.Marshal_strings fileList))])).
Proof.
  intros Hw Hw2 Hm2. split.
  { destruct (delete_outcome h w r env Hw) as [[[H|H] _]|[[H|H] _]];
      rewrite H; discriminate. }
  intros port Hm Hpath Hkey Habs res res2.
  pose proof (remove_absent_ok _ present port (store env) (bucketName h) key
                Hkey Habs) as Hok.
  pose proof (remove_removes _ present port (store env) (bucketName h) key
                Hok) as Hgone.
  assert (Hres : res =
    (Write w ("Successfully deleted '" +:+ key +:+ "' from bucket '"
              +:+ bucketName h +:+ "'." +:+ LF),
     called env (minio.CallRemoveObject (bucketName h) key)
       (snd (minio.RemoveObject (minioClient h) (store env) (bucketName h)
               key)))).
  { subst res. rewrite (delete_unfold h w r env key Hm Hpath Hkey).
    cbv zeta. now rewrite Hok. }
  split; [rewrite Hres; now apply status_Write_fresh |].
  split; [rewrite Hres; apply wire_Write |].
  split; [rewrite Hres; reflexivity |].
  destruct (list_outcome h w2 r2 (snd res) Hw2 Hm2) as [_ Hlist].
  fold res2 in Hlist.
  destruct (rangeObjects _ _) as [fileList|e] eqn:Hrange; [| now left].
  right. exists fileList. split; [| exact Hlist].
  apply rangeObjects_ok in Hrange. destruct Hrange as [Hel Herr].
  rewrite Hel. simpl. intros Hin. apply in_map_iff in Hin.
  destruct Hin as [o [Hk Ho]].
  assert (Hp : present (store (snd res)) (bucketName h) (minio.Key o)).
  { apply (list_present _ present port _ _ o Ho). now apply Herr. }
  rewrite Hk, Hres in Hp. now apply Hgone.
Qed.

(** What the grant handler answers to a GET on [/get-download-link/key]
    with a non-empty key. *)
Lemma presign_unfold h w r env key :
  Method r = MethodGet ->
  URL_Path r = "/get-download-link/" +:+ key ->
  key <> EmptyString ->
  getPresignedURLHandler h w r env =
  let env' := called env
    (minio.CallPresignedGetObject (bucketName h) key (5 * Minute))
    (store env) in
  match minio.PresignedGetObject (minioClient h) (store env) (bucketName h)
          key (5 * Minute) with
  | inr err =>
      (http.Error w "File not found or access denied" StatusNotFound,
       log_Print env'
         ("Error generating presigned URL for '" +:+ key +:+ "': " +:+ err))
  | inl url =>
      (Write (WriteHeader
                (Header_Set w "Content-Type" "application/json") StatusOK)
         (json.Encode_line (json.Marshal_map1 "url" url)), env')
  end.
Proof.
  intros Hm Hpath Hkey. unfold getPresignedURLHandler. rewrite Hm, Hpath.
  change (negb (String.eqb MethodGet MethodGet)) with false.
  cbv iota zeta. rewrite TrimPrefix_app.
  destruct (String.eqb_spec key EmptyString); [contradiction |].
  reflexivity.
Qed.

(** C2: for a GET on [/get-download-link/key] with a non-empty key, any
    error of the presign call, whatever it says, is answered with 404 and
    the same fixed message, and a signed URL is answered with 200 and one
    JSON object holding that URL; so over a store that honours the storage
    port, a key that is not in the bucket is answered with 404 and a key
    that is there with 200 and its URL. *)
Theorem presign_failure_is_not_found h w r env key :
  status w = None ->
  Method r = MethodGet ->
  URL_Path r = "/get-download-link/" +:+ key ->
  key <> EmptyString ->
  let res := getPresignedURLHandler h w r env in
  let grant := minio.PresignedGetObject (minioClient h) (store env)
                 (bucketName h) key (5 * Minute) in
  (forall err, grant = inr err ->
     status (fst res) = Some StatusNotFound /\
     wire (fst res) =
       wire w ++ [Wrote ("File not found or access denied" +:+ LF)]) /\
  (forall url, grant = inl url ->
     status (fst res) = Some StatusOK /\
     wire (fst res) =
       wire w ++ [Wrote (json.Encode_line (json.Marshal_map1 "url" url))]) /\
  (StoragePort (minioClient h) present ->
   (~ present (store env) (bucketName h) key ->
      status (fst res) = Some StatusNotFound) /\
   (present (store env) (bucketName h) key ->
      exists url,
        status (fst res) = Some StatusOK /\
        wire (fst res) =
          wire w
          ++ [Wrote (json.Encode_line (json.Marshal_map1 "url" url))])).
Proof.
  intros Hw Hm Hpath Hkey res grant.
  pose proof (presign_unfold h w r env key Hm Hpath Hkey) as Hres.
  fold res in Hres. cbv zeta in Hres. fold grant in Hres.
  assert (Hfail : forall err, grant = inr err ->
     status (fst res) = Some StatusNotFound /\
     wire (fst res) =
       wire w ++ [Wrote ("File not found or access denied" +:+ LF)]).
  { intros err Hg. rewrite Hres, Hg. cbn [fst].
    split; [now apply status_Error | apply wire_Error]. }
  assert (Hgrant : forall url, grant = inl url ->
     status (fst res) = Some StatusOK /\
     wire (fst res) =
       wire w ++ [Wrote (json.Encode_line (json.Marshal_map1 "url" url))]).
  { intros url Hg. rewrite Hres, Hg. cbn [fst]. split.
    - apply status_Write_committed. now apply status_WriteHeader.
    - now rewrite wire_Write, wire_WriteHeader. }
  split; [exact Hfail |]. split; [exact Hgrant |].
  intros port. split.
  - intros Habs.
    destruct (presign_absent _ present port (store env) (bucketName h) key
                (5 * Minute) Habs) as [err Hg].
    now apply (Hfail err).
  - intros Hpres.
    destruct (presign_present _ present port (store env) (bucketName h) key
                (5 * Minute) Hpres) as [url Hg].
    exists url. now apply Hgrant.
Qed.

End Port.

(** ** The event stream bridge *)

Section Watch.

Context {Store : Type} {Event : Type}.
Variable Marshal_Records : slice Event -> string + error.
Implicit Types (h : MinioHandler Store) (w : ResponseWriter).
Implicit Types (r : Request) (env : World Store).
Implicit Types (wakes pre post : list (Wake Event)).

Local Abbreviation loop := (watchLoop Marshal_Records).
Local Abbreviation watch := (watchBucketHandler Marshal_Records).

(** Running the loop on a longer trace continues from where the shorter
    one left the session, unless the handler had returned. *)
Lemma watchLoop_app w env pre post :
  loop w env (pre ++ post) =
  match loop w env pre with
  | (w1, env1, Waiting) => loop w1 env1 post
  | (w1, env1, Returned) => (w1, env1, Returned)
  end.
Proof.
  revert w env. induction pre as [|[n|] pre IH]; intros w env; simpl.
  - reflexivity.
  - destruct (notification.Err n); [reflexivity |].
    destruct (Marshal_Records _); apply IH.
  - reflexivity.
Qed.

(** The loop makes no call on the client and leaves the store alone. *)
Lemma watchLoop_world w env wakes :
  calls (snd (fst (loop w env wakes))) = calls env /\
  store (snd (fst (loop w env wakes))) = store env.
Proof.
  revert w env. induction wakes as [|[n|] l IH]; intros w env; simpl.
  - auto.
  - destruct (notification.Err n); [auto |].
    destruct (Marshal_Records _); [apply IH |].
    destruct (IH w (log_Print env ("Error marshaling notification: " +:+ e)))
      as [H1 H2].
    now rewrite H1, H2.
  - auto.
Qed.

(** The loop only adds to what is on the wire, and keeps a status that is
    already committed. *)
Lemma watchLoop_wire w env wakes :
  exists more, wire (fst (fst (loop w env wakes))) = wire w ++ more.
Proof.
  revert w env. induction wakes as [|[n|] l IH]; intros w env; simpl.
  - exists []. now rewrite app_nil_r.
  - destruct (notification.Err n) as [e|].
    + eexists. cbn [fst]. rewrite wire_Flush, wire_Write, <- app_assoc.
      reflexivity.
    + destruct (Marshal_Records _) as [j|e]; [| apply IH].
      destruct (IH (Flush (Write w ("data: " +:+ j +:+ LF +:+ LF))) env)
        as [more H].
      eexists. rewrite H, wire_Flush, wire_Write, <- !app_assoc.
      reflexivity.
  - exists []. now rewrite app_nil_r.
Qed.

Lemma watchLoop_status w env wakes code :
  status w = Some code ->
  status (fst (fst (loop w env wakes))) = Some code.
Proof.
  revert w env. induction wakes as [|[n|] l IH]; intros w env Hs; simpl.
  - exact Hs.
  - destruct (notification.Err n) as [e|].
    + cbn [fst]. now apply status_Flush_committed, status_Write_committed.
    + destruct (Marshal_Records _) as [j|e]; apply IH; [| exact Hs].
      now apply status_Flush_committed, status_Write_committed.
  - exact Hs.
Qed.

(** With a writer that can flush, the handler is the loop run after the
    subscription is opened and the comment frame is flushed. *)
Lemma watch_unfold h w r env wakes :
  flusher w = true ->
  watch h w r env wakes =
  loop
    (Flush (Write
       (Header_Set (Header_Set (Header_Set w
          "Content-Type" "text/event-stream")
          "Cache-Control" "no-cache")
          "Connection" "keep-alive")
       establishedFrame))
    (log_Print (called env (listenCall (bucketName h)) (store env))
       "SSE connection established. Watching for bucket events...")
    wakes.
Proof.
  intros Hf. unfold watchBucketHandler. cbn [flusher Header_Set].
  rewrite Hf. reflexivity.
Qed.

(** A session that is still waiting runs on a writer that can flush. *)
Lemma waiting_flusher h w r env wakes w1 env1 :
  watch h w r env wakes = (w1, env1, Waiting) -> flusher w = true.
Proof.
  unfold watchBucketHandler. cbn [flusher Header_Set].
  destruct (flusher w); [reflexivity | discriminate].
Qed.

Lemma watch_app h w r env pre post w1 env1 :
  watch h w r env pre = (w1, env1, Waiting) ->
  watch h w r env (pre ++ post) = loop w1 env1 post.
Proof.
  intros H. pose proof (waiting_flusher _ _ _ _ _ _ _ H) as Hf.
  rewrite watch_unfold in * by exact Hf.
  rewrite watchLoop_app, H. reflexivity.
Qed.

(** A waiting session has made exactly one call, the subscription. *)
Lemma waiting_calls h w r env wakes w1 env1 :
  watch h w r env wakes = (w1, env1, Waiting) ->
  calls env1 = calls env ++ [listenCall (bucketName h)].
Proof.
  intros H. pose proof (waiting_flusher _ _ _ _ _ _ _ H) as Hf.
  rewrite watch_unfold in H by exact Hf.
  match type of H with loop ?w0 ?e0 _ = _ =>
    destruct (watchLoop_world w0 e0 wakes) as [Hc _] end.
  rewrite H in Hc. exact Hc.
Qed.

(** A run of notifications that carry no error and whose record sets
    marshal puts one flushed data frame per notification on the wire, in
    the order of the run, and leaves the session waiting. *)
Lemma watchLoop_frames w env
    (infos : list (notification.Info Event)) (datas : list string) :
  Forall2 (fun n jsonData =>
             notification.Err n = None /\
             Marshal_Records (notification.Records n) = inl jsonData)
    infos datas ->
  snd (loop w env (List.map Received infos)) = Waiting /\
  snd (fst (loop w env (List.map Received infos))) = env /\
  wire (fst (fst (loop w env (List.map Received infos)))) =
    wire w ++ flat_map (fun jsonData => [Wrote (dataFrame jsonData); Flushed])
                datas.
Proof.
  intros HF. revert w. induction HF as [|n j infos datas [He Hj] _ IH];
    intros w; simpl.
  - now rewrite app_nil_r.
  - rewrite He, Hj.
    destruct (IH (Flush (Write w ("data: " +:+ j +:+ LF +:+ LF))))
      as (H1 & H2 & H3).
    rewrite H1, H2, H3, wire_Flush, wire_Write, <- !app_assoc.
    repeat split.
Qed.

(** C4: in a watch session that is still waiting, a notification that
    carries no error and whose record set marshals to [jsonData] adds
    exactly one data frame holding [jsonData] and then a flush to the wire,
    and the session keeps waiting; so a session that receives a run of such
    notifications has sent, after the opening comment, one flushed frame per
    notification, in the order of arrival. *)
Theorem each_notification_is_one_frame h w r env pre w1 env1
    (n : notification.Info Event) (jsonData : string) :
  watch h w r env pre = (w1, env1, Waiting) ->
  notification.Err n = None ->
  Marshal_Records (notification.Records n) = inl jsonData ->
  watch h w r env (pre ++ [Received n]) =
    (Flush (Write w1 (dataFrame jsonData)), env1, Waiting) /\
  wire (Flush (Write w1 (dataFrame jsonData))) =
    wire w1 ++ [Wrote (dataFrame jsonData); Flushed] /\
  forall (infos : list (notification.Info Event)) (datas : list string),
    Forall2 (fun n jsonData =>
               notification.Err n = None /\
               Marshal_Records (notification.Records n) = inl jsonData)
      infos datas ->
    snd (watch h w r env (List.map Received infos)) = Waiting /\
    wire (fst (fst (watch h w r env (List.map Received infos)))) =
      wire w ++ [Wrote establishedFrame; Flushed]
        ++ flat_map (fun jsonData => [Wrote (dataFrame jsonData); Flushed])
             datas.
Proof.
  intros Hpre He Hj. split; [| split].
  - rewrite (watch_app _ _ _ _ _ _ _ _ Hpre). simpl. now rewrite He, Hj.
  - now rewrite wire_Flush, wire_Write, <- app_assoc.
  - intros infos datas HF.
    pose proof (waiting_flusher _ _ _ _ _ _ _ Hpre) as Hf.
    rewrite watch_unfold by exact Hf.
    match goal with |- context [loop ?w0 ?e0 _] =>
      destruct (watchLoop_frames w0 e0 infos datas HF) as (H1 & _ & H3) end.
    split; [exact H1 |].
    rewrite H3, wire_Flush, wire_Write, <- !app_assoc. reflexivity.
Qed.

(** C8: in a watch session that is still waiting, a notification that
    carries an error makes the handler write one error frame with the
    error's text, flush, and return: whatever would have come after it on
    the subscription adds nothing to the wire, and the subscription opened
    at the start remains the only call made on the client. *)
Theorem subscription_error_ends_session h w r env pre post w1 env1
    (n : notification.Info Event) (err : error) :
  watch h w r env pre = (w1, env1, Waiting) ->
  notification.Err n = Some err ->
  watch h w r env (pre ++ Received n :: post) =
    (Flush (Write w1 (errorFrame err)),
     log_Print env1 ("Error in bucket notification: " +:+ err),
     Returned) /\
  wire (fst (fst (watch h w r env (pre ++ Received n :: post)))) =
    wire w1 ++ [Wrote (errorFrame err); Flushed] /\
  calls (snd (fst (watch h w r env (pre ++ Received n :: post)))) =
    calls env ++ [listenCall (bucketName h)].
Proof.
  intros Hpre He.
  assert (Hres : watch h w r env (pre ++ Received n :: post) =
    (Flush (Write w1 (errorFrame err)),
     log_Print env1 ("Error in bucket notification: " +:+ err),
     Returned)).
  { rewrite (watch_app _ _ _ _ _ _ _ _ Hpre). simpl. now rewrite He. }
  rewrite Hres. cbn [fst snd calls log_Print].
  split; [reflexivity |]. split.
  - now rewrite wire_Flush, wire_Write, <- app_assoc.
  - exact (waiting_calls _ _ _ _ _ _ _ Hpre).
Qed.

(** C5, where the code parts from it: the watch handler never looks at
    the method. On a writer that can flush it answers any request, a POST
    or a DELETE as well as a GET, by opening the subscription and sending
    the stream with status 200; it never answers 405. *)
Theorem watch_accepts_any_method h r env wakes (canFlush : bool) :
  status (fst (fst (watch h (NewResponseWriter canFlush) r env wakes)))
    <> Some StatusMethodNotAllowed /\
  status (fst (fst (watch h (NewResponseWriter true) r env wakes)))
    = Some StatusOK /\
  calls (snd (fst (watch h (NewResponseWriter true) r env wakes)))
    = calls env ++ [listenCall (bucketName h)] /\
  exists more,
    wire (fst (fst (watch h (NewResponseWriter true) r env wakes)))
    = [Wrote establishedFrame; Flushed] ++ more.
Proof.
  assert (Hok :
    status (fst (fst (watch h (NewResponseWriter true) r env wakes)))
    = Some StatusOK).
  { rewrite watch_unfold by reflexivity. now apply watchLoop_status. }
  split; [| split; [exact Hok | split]].
  - destruct canFlush; [rewrite Hok; discriminate |].
    unfold watchBucketHandler. cbn [flusher Header_Set NewResponseWriter negb fst].
    rewrite status_Error by reflexivity. discriminate.
  - rewrite watch_unfold by reflexivity.
    match goal with |- context [loop ?w0 ?e0 _] =>
      destruct (watchLoop_world w0 e0 wakes) as [Hc _] end.
    rewrite Hc. reflexivity.
  - rewrite watch_unfold by reflexivity.
    match goal with |- context [loop ?w0 ?e0 _] =>
      destruct (watchLoop_wire w0 e0 wakes) as [more Hw] end.
    exists more. rewrite Hw, wire_Flush, wire_Write. reflexivity.
Qed.

End Watch.

(** ** The handlers at work on the in-memory store *)





Lemma client_error_precedes_backend_witness :
  snd (uploadFileHandler MemStore.handler (NewResponseWriter false)
         (Examples.multipartNoFile "POST" "/upload")
         (MemStore.world Examples.report)) = MemStore.world Examples.report /\
  snd (modifyFileHandler MemStore.handler (NewResponseWriter false)
         (Examples.multipartNoFile "PUT" "/modify/")
         (MemStore.world Examples.report)) = MemStore.world Examples.report /\
  snd (deleteFileHandler MemStore.handler (NewResponseWriter false)
         (Examples.bare "GET" "/delete/report.pdf")
         (MemStore.world Examples.report)) = MemStore.world Examples.report.
Proof.
  split; [| split].
  - destruct (client_error_precedes_backend MemStore.handler
                (NewResponseWriter false)
                (Examples.multipartNoFile "POST" "/upload")
                (MemStore.world Examples.report) eq_refl) as (H & _ & _).
    apply H. exists StatusBadRequest.
    split; [reflexivity | unfold StatusBadRequest; lia].
  - destruct (client_error_precedes_backend MemStore.handler
                (NewResponseWriter false)
                (Examples.multipartNoFile "PUT" "/modify/")
                (MemStore.world Examples.report) eq_refl) as (_ & H & _).
    apply H. exists StatusBadRequest.
    split; [reflexivity | unfold StatusBadRequest; lia].
  - destruct (client_error_precedes_backend MemStore.handler
                (NewResponseWriter false)
                (Examples.bare "GET" "/delete/report.pdf")
                (MemStore.world Examples.report) eq_refl) as (_ & _ & H).
    apply H. exists StatusMethodNotAllowed.
    split; [reflexivity | unfold StatusMethodNotAllowed; lia].
Defined.


Lemma missing_is_absent :
  ~ MemStore.present Examples.report "testbucket" "missing.txt".
Proof. intros [o Ho]. vm_compute in Ho. discriminate. Qed.

Lemma report_is_present :
  MemStore.present Examples.report "testbucket" "report.pdf".
Proof. eexists. reflexivity. Qed.

Lemma presign_failure_is_not_found_witness :
  status (fst (getPresignedURLHandler MemStore.handler
                 (NewResponseWriter false)
                 (Examples.bare "GET" "/get-download-link/missing.txt")
                 (MemStore.world Examples.report)))
    = Some StatusNotFound /\
  status (fst (getPresignedURLHandler MemStore.handler
                 (NewResponseWriter false)
                 (Examples.bare "GET" "/get-download-link/report.pdf")
                 (MemStore.world Examples.report)))
    = Some StatusOK.
Proof.
  split.
  - destruct (presign_failure_is_not_found MemStore.present MemStore.handler
                (NewResponseWriter false)
                (Examples.bare "GET" "/get-download-link/missing.txt")
                (MemStore.world Examples.report) "missing.txt"
                eq_refl eq_refl eq_refl) as (_ & _ & H).
    + discriminate.
    + destruct (H MemStore_port) as [Habsent _].
      exact (Habsent missing_is_absent).
  - destruct (presign_failure_is_not_found MemStore.present MemStore.handler
                (NewResponseWriter false)
                (Examples.bare "GET" "/get-download-link/report.pdf")
                (MemStore.world Examples.report) "report.pdf"
                eq_refl eq_refl eq_refl) as (_ & _ & H).
    + discriminate.
    + destruct (H MemStore_port) as [_ Hpresent].
      destruct (Hpresent report_is_present) as (url & Hs & _). exact Hs.
Defined.

Lemma delete_absent_key_succeeds_witness :
  status (fst (deleteFileHandler MemStore.handler (NewResponseWriter false)
                 (Examples.bare "DELETE" "/delete/missing.txt")
                 (MemStore.world Examples.report)))
    = Some StatusOK.
Proof.
  destruct (delete_absent_key_succeeds MemStore.present MemStore.handler
              (NewResponseWriter false) (NewResponseWriter false)
              (Examples.bare "DELETE" "/delete/missing.txt")
              (Examples.bare "GET" "/list")
              (MemStore.world Examples.report) "missing.txt"
              eq_refl eq_refl eq_refl) as (_ & H).
  destruct (H MemStore_port eq_refl eq_refl) as (Hs & _).
  - discriminate.
  - exact missing_is_absent.
  - exact Hs.
Defined.

(** C3, where the code parts from it. On an empty bucket the list handler
    answers 200, but the body is the JSON value [null], not the empty
    array: the list is declared as a nil slice and nothing is appended to
    it. The run below is the scenario of the specification: upload, list,
    delete, list. *)
Theorem list_of_empty_bucket_is_null :
  let w := NewResponseWriter false in
  let upload := uploadFileHandler MemStore.handler w
      (Examples.multipart "POST" "/upload" 350 Examples.smallFile
         (Examples.named "report.pdf" Examples.smallFile))
      (MemStore.world ∅) in
  let list1 := listFilesHandler MemStore.handler w
      (Examples.bare "GET" "/list") (snd upload) in
  let delete := deleteFileHandler MemStore.handler w
      (Examples.bare "DELETE" "/delete/report.pdf") (snd list1) in
  let list2 := listFilesHandler MemStore.handler w
      (Examples.bare "GET" "/list") (snd delete) in
  status (fst upload) = Some StatusCreated /\
  status (fst list1) = Some StatusOK /\
  body (fst list1) = "[" +:+ DQUOTE +:+ "report.pdf" +:+ DQUOTE +:+ "]" +:+ LF /\
  status (fst delete) = Some StatusOK /\
  store (snd delete) = ∅ /\
  status (fst list2) = Some StatusOK /\
  body (fst list2) = "null" +:+ LF /\
  body (fst list2) <> "[]" +:+ LF /\
  body (fst (listFilesHandler MemStore.handler w
               (Examples.bare "GET" "/list") (MemStore.world ∅)))
    = "null" +:+ LF.
Proof.
  cbv zeta. repeat split; try (vm_compute; reflexivity).
  vm_compute. discriminate.
Qed.

Lemma each_notification_is_one_frame_witness :
  wire (fst (fst (watchBucketHandler Examples.Marshal_Records
                    MemStore.handler (NewResponseWriter true)
                    (Examples.bare "GET" "/watch")
                    (MemStore.world Examples.report)
                    ([] ++ [Received (Examples.created "foo.txt")])))) =
  [Wrote establishedFrame; Flushed;
   Wrote (dataFrame
            ("[{" +:+ DQUOTE +:+ "EventName" +:+ DQUOTE +:+ ":" +:+ DQUOTE
             +:+ "s3:ObjectCreated:Put" +:+ DQUOTE +:+ "," +:+ DQUOTE
             +:+ "Key" +:+ DQUOTE +:+ ":" +:+ DQUOTE +:+ "foo.txt"
             +:+ DQUOTE +:+ "}]"));
   Flushed].
Proof.
  pose (start := watchBucketHandler Examples.Marshal_Records
                   MemStore.handler (NewResponseWriter true)
                   (Examples.bare "GET" "/watch")
                   (MemStore.world Examples.report) []).
  destruct (each_notification_is_one_frame Examples.Marshal_Records
              MemStore.handler (NewResponseWriter true)
              (Examples.bare "GET" "/watch")
              (MemStore.world Examples.report) []
              (fst (fst start)) (snd (fst start))
              (Examples.created "foo.txt")
              ("[{" +:+ DQUOTE +:+ "EventName" +:+ DQUOTE +:+ ":" +:+ DQUOTE
               +:+ "s3:ObjectCreated:Put" +:+ DQUOTE +:+ "," +:+ DQUOTE
               +:+ "Key" +:+ DQUOTE +:+ ":" +:+ DQUOTE +:+ "foo.txt"
               +:+ DQUOTE +:+ "}]")
              eq_refl eq_refl eq_refl) as (H1 & H2 & _).
  rewrite H1. cbn [fst]. rewrite H2. reflexivity.
Defined.

Lemma subscription_error_ends_session_witness :
  wire (fst (fst (watchBucketHandler Examples.Marshal_Records
                    MemStore.handler (NewResponseWriter true)
                    (Examples.bare "GET" "/watch")
                    (MemStore.world Examples.report)
                    ([Received (Examples.created "foo.txt")]
                     ++ Received Examples.broken
                     :: [Received (Examples.created "bar.txt")])))) =
  wire (fst (fst (watchBucketHandler Examples.Marshal_Records
                    MemStore.handler (NewResponseWriter true)
                    (Examples.bare "GET" "/watch")
                    (MemStore.world Examples.report)
                    [Received (Examples.created "foo.txt")])))
  ++ [Wrote (errorFrame "unexpected EOF"); Flushed].
Proof.
  pose (start := watchBucketHandler Examples.Marshal_Records
                   MemStore.handler (NewResponseWriter true)
                   (Examples.bare "GET" "/watch")
                   (MemStore.world Examples.report)
                   [Received (Examples.created "foo.txt")]).
  destruct (subscription_error_ends_session Examples.Marshal_Records
              MemStore.handler (NewResponseWriter true)
              (Examples.bare "GET" "/watch")
              (MemStore.world Examples.report)
              [Received (Examples.created "foo.txt")]
              [Received (Examples.created "bar.txt")]
              (fst (fst start)) (snd (fst start))
              Examples.broken "unexpected EOF"
              eq_refl eq_refl) as (_ & H & _).
  exact H.
Defined.

(** A POST to [/watch] is served like a GET: status 200, the opening
    comment, then the frames of the notifications. *)
Example post_watch_streams :
  let res := watchBucketHandler Examples.Marshal_Records MemStore.handler
               (NewResponseWriter true) (Examples.bare "POST" "/watch")
               (MemStore.world Examples.report)
               [Received (Examples.created "foo.txt")] in
  status (fst (fst res)) = Some StatusOK /\
  calls (snd (fst res)) = [listenCall "testbucket"] /\
  snd res = Waiting /\
  List.length (wire (fst (fst res))) = 4%nat.
Proof. cbv zeta. repeat split; vm_compute; reflexivity. Qed.

(** ** More on the request/response handlers *)

Lemma answered_Error (w : ResponseWriter) (msg : string) (code : Z) :
  status w = None -> answered w (http.Error w msg code) code msg.
Proof. intros H. split; [now apply status_Error | apply wire_Error]. Qed.

(** A path that starts with the prefix is the prefix followed by what
    [TrimPrefix] returns. *)
Lemma prefix_split (p s : string) :
  String.prefix p s = true -> s = p +:+ TrimPrefix s p.
Proof.
  unfold TrimPrefix. intros H. rewrite H. revert s H.
  induction p as [|c p IH]; intros s H.
  - simpl. rewrite Nat.sub_0_r. symmetry. apply substring_all.
  - destruct s as [|d s]; simpl in H; [discriminate |].
    destruct (ascii_dec c d) as [->|]; [| discriminate].
    simpl String.length. simpl substring.
    change (String d s =
            String d (p +:+ substring (String.length p)
                              (String.length s - String.length p) s)).
    f_equal. apply IH, H.
Qed.

Lemma append_empty_r (p : string) : p +:+ EmptyString = p.
Proof.
  induction p as [|c p IH]; [reflexivity |].
  change (String c (p +:+ EmptyString) = String c p). now f_equal.
Qed.

(** Nothing is left after trimming exactly when the path is the prefix
    itself, or empty. *)
Lemma TrimPrefix_empty_iff (p s : string) :
  p <> EmptyString ->
  TrimPrefix s p = EmptyString <-> s = p \/ s = EmptyString.
Proof.
  intros Hp. split.
  - intros H. destruct (String.prefix p s) eqn:E.
    + left. rewrite (prefix_split p s E), H. apply append_empty_r.
    + right. unfold TrimPrefix in H. now rewrite E in H.
  - intros [->| ->].
    + rewrite <- (append_empty_r p) at 1. apply TrimPrefix_app.
    + unfold TrimPrefix. destruct p; [contradiction | reflexivity].
Qed.

Lemma header_WriteHeader (w : ResponseWriter) (code : Z) :
  header (WriteHeader w code) = header w.
Proof. unfold WriteHeader. now destruct (status w). Qed.

Lemma header_Write (w : ResponseWriter) (s : string) :
  header (Write w s) = header w.
Proof. unfold Write. cbn [header]. apply header_WriteHeader. Qed.

Lemma header_Flush (w : ResponseWriter) : header (Flush w) = header w.
Proof. unfold Flush. cbn [header]. apply header_WriteHeader. Qed.

(** [http.Error] leaves a plain-text content type behind, whatever the
    handler had set before. *)
Lemma header_Error (w : ResponseWriter) (msg : string) (code : Z) :
  header (http.Error w msg code) !! "Content-Type"
  = Some ["text/plain; charset=utf-8"].
Proof.
  unfold http.Error. rewrite header_Write, header_WriteHeader.
  unfold Header_Set, Header_Del. cbn [header].
  rewrite lookup_insert_ne by discriminate. apply lookup_insert_eq.
Qed.

Section MoreFacade.

Context {Store : Type}.
Implicit Types (h : MinioHandler Store) (w : ResponseWriter).
Implicit Types (r : Request) (env : World Store).

(** X1: once a [file] part is at hand, the result of the put decides the
    answer: no error gives 201 with the object name and the bucket echoed
    and nothing logged, an error gives 500 with a fixed text while the
    error itself goes to the log only. Either way the store is the one the
    put leaves. *)
Theorem put_result_decides_answer h w r objectName env file header :
  status w = None ->
  ParseMultipartForm r (Z.shiftl 10 20) = None ->
  FormFile r "file" = inl (file, header) ->
  let key := if String.eqb objectName EmptyString then Filename header
             else objectName in
  let put := minio.PutObject (minioClient h) (store env) (bucketName h) key
               file (Size header)
               {| minio.ContentType :=
                    MIMEHeader_Get (Header header) "Content-Type" |} in
  let res := processAndUploadFile h w r objectName env in
  store (snd res) = snd put /\
  match fst put with
  | None =>
      status (fst res) = Some StatusCreated /\
      wire (fst res) =
        wire w ++ [Wrote ("Successfully processed '" +:+ key
                          +:+ "' in bucket '" +:+ bucketName h +:+ "'."
                          +:+ LF)] /\
      logs (snd res) = logs env
  | Some err =>
      answered w (fst res) StatusInternalServerError "Failed to upload file" /\
      logs (snd res) = logs env ++ ["Error uploading file to MinIO: " +:+ err]
  end.
Proof.
  intros Hw H1 H2 key put res. subst res. unfold processAndUploadFile.
  rewrite H1, H2. fold key. fold put.
  destruct put as [[err|] s]; cbn [fst snd calls store logs called log_Print].
  - split; [reflexivity |]. split; [now apply answered_Error | reflexivity].
  - split; [reflexivity |]. split; [| split; [| reflexivity]].
    + now apply status_Write_committed, status_WriteHeader.
    + now rewrite wire_Write, wire_WriteHeader.
Qed.

(** X2: the same for Delete: on a DELETE of a non-empty key the result of the
    remove decides between 200 with the key and the bucket echoed, and 500
    with a fixed text and the error in the log. *)
Theorem remove_result_decides_answer h w r env key :
  status w = None ->
  Method r = MethodDelete ->
  URL_Path r = "/delete/" +:+ key ->
  key <> EmptyString ->
  let removed :=
    minio.RemoveObject (minioClient h) (store env) (bucketName h) key in
  let res := deleteFileHandler h w r env in
  store (snd res) = snd removed /\
  calls (snd res) = calls env ++ [minio.CallRemoveObject (bucketName h) key] /\
  match fst removed with
  | None =>
      status (fst res) = Some StatusOK /\
      wire (fst res) =
        wire w ++ [Wrote ("Successfully deleted '" +:+ key
                          +:+ "' from bucket '" +:+ bucketName h +:+ "'."
                          +:+ LF)] /\
      logs (snd res) = logs env
  | Some err =>
      answered w (fst res) StatusInternalServerError "Failed to delete file" /\
      logs (snd res) = logs env ++ ["Error removing object: " +:+ err]
  end.
Proof.
  intros Hw Hm Hpath Hkey removed res. subst res.
  rewrite (delete_unfold h w r env key Hm Hpath Hkey). cbv zeta. fold removed.
  destruct removed as [[err|] s]; cbn [fst snd calls store logs called log_Print].
  - repeat split. now apply status_Error. apply wire_Error.
  - repeat split. now apply status_Write_fresh. apply wire_Write.
Qed.

(** An answer made with [http.Error] and one of the fixed texts. *)
Lemma fixed_answer w msg code :
  status w = None ->
  In msg errorTexts ->
  forall code', status (http.Error w msg code) = Some code' ->
  exists msg', In msg' errorTexts /\ answered w (http.Error w msg code) code' msg'.
Proof.
  intros Hw Hin code' Hs. exists msg. split; [exact Hin |].
  rewrite (status_Error w msg code Hw) in Hs. injection Hs as <-.
  now apply answered_Error.
Qed.

(** X3: every answer of the five request/response handlers with a status of
    400 or more is one line holding one of the fixed texts of the source:
    whatever error the client returned, its text is not in the response. *)
Theorem errors_carry_fixed_texts h w r env (code : Z) :
  status w = None ->
  400 <= code ->
  (status (fst (uploadFileHandler h w r env)) = Some code ->
   exists msg, In msg errorTexts /\
     answered w (fst (uploadFileHandler h w r env)) code msg) /\
  (status (fst (modifyFileHandler h w r env)) = Some code ->
   exists msg, In msg errorTexts /\
     answered w (fst (modifyFileHandler h w r env)) code msg) /\
  (status (fst (deleteFileHandler h w r env)) = Some code ->
   exists msg, In msg errorTexts /\
     answered w (fst (deleteFileHandler h w r env)) code msg) /\
  (status (fst (listFilesHandler h w r env)) = Some code ->
   exists msg, In msg errorTexts /\
     answered w (fst (listFilesHandler h w r env)) code msg) /\
  (status (fst (getPresignedURLHandler h w r env)) = Some code ->
   exists msg, In msg errorTexts /\
     answered w (fst (getPresignedURLHandler h w r env)) code msg).
Proof.
  intros Hw Hcode.
  assert (Hfix : forall msg c env',
    In msg errorTexts ->
    status (fst (http.Error w msg c, env')) = Some code ->
    exists msg', In msg' errorTexts /\
      answered w (fst (http.Error w msg c, env')) code msg').
  { intros msg c env' Hin Hs. now apply fixed_answer. }
  assert (Hproc : forall objectName,
    status (fst (processAndUploadFile h w r objectName env)) = Some code ->
    exists msg, In msg errorTexts /\
      answered w (fst (processAndUploadFile h w r objectName env)) code msg).
  { intros objectName. unfold processAndUploadFile.
    destruct (ParseMultipartForm r _);
      [apply Hfix; simpl; tauto |].
    destruct (FormFile r "file") as [[file header]|e];
      [| apply Hfix; simpl; tauto].
    destruct (minio.PutObject _ _ _ _ _ _ _) as [[e|] s];
      [apply Hfix; simpl; tauto |].
    cbn [fst]. intros Hs.
    rewrite (status_Write_committed _ _ StatusCreated) in Hs
      by now apply status_WriteHeader.
    injection Hs as <-. unfold StatusCreated in Hcode. lia. }
  repeat split.
  - unfold uploadFileHandler.
    destruct (negb _); [apply Hfix; simpl; tauto | apply Hproc].
  - unfold modifyFileHandler.
    destruct (negb _); [apply Hfix; simpl; tauto |]. cbv zeta.
    destruct (String.eqb _ _); [apply Hfix; simpl; tauto | apply Hproc].
  - unfold deleteFileHandler.
    destruct (negb _); [apply Hfix; simpl; tauto |]. cbv zeta.
    destruct (String.eqb _ _); [apply Hfix; simpl; tauto |].
    destruct (minio.RemoveObject _ _ _ _) as [[e|] s];
      [apply Hfix; simpl; tauto |].
    cbn [fst]. intros Hs. rewrite (status_Write_fresh _ _ Hw) in Hs.
    injection Hs as <-. unfold StatusOK in Hcode. lia.
  - unfold listFilesHandler.
    destruct (negb _); [apply Hfix; simpl; tauto |]. cbv zeta.
    destruct (rangeObjects _ _) as [fileList|e];
      [| apply Hfix; simpl; tauto].
    cbn [fst]. intros Hs. rewrite status_Write_fresh in Hs by exact Hw.
    injection Hs as <-. unfold StatusOK in Hcode. lia.
  - unfold getPresignedURLHandler.
    destruct (negb _); [apply Hfix; simpl; tauto |]. cbv zeta.
    destruct (String.eqb _ _); [apply Hfix; simpl; tauto |].
    destruct (minio.PresignedGetObject _ _ _ _ _) as [url|e];
      [| apply Hfix; simpl; tauto].
    cbn [fst]. intros Hs.
    rewrite (status_Write_committed _ _ StatusOK) in Hs
      by now apply status_WriteHeader.
    injection Hs as <-. unfold StatusOK in Hcode. lia.
Qed.

(** X4: each of the five request/response handlers answers with exactly one
    write, whatever the request and whatever the client returns: after an
    [http.Error] no handler goes on to write more. *)
Theorem one_write_per_response h w r env :
  (exists line, wire (fst (uploadFileHandler h w r env))
                = wire w ++ [Wrote line]) /\
  (exists line, wire (fst (modifyFileHandler h w r env))
                = wire w ++ [Wrote line]) /\
  (exists line, wire (fst (deleteFileHandler h w r env))
                = wire w ++ [Wrote line]) /\
  (exists line, wire (fst (listFilesHandler h w r env))
                = wire w ++ [Wrote line]) /\
  (exists line, wire (fst (getPresignedURLHandler h w r env))
                = wire w ++ [Wrote line]).
Proof.
  assert (Herr : forall msg code env',
    exists line, wire (fst (http.Error w msg code, env'))
                 = wire w ++ [Wrote line]).
  { intros msg code env'. eexists. apply wire_Error. }
  assert (Hproc : forall objectName,
    exists line, wire (fst (processAndUploadFile h w r objectName env))
                 = wire w ++ [Wrote line]).
  { intros objectName. unfold processAndUploadFile.
    destruct (ParseMultipartForm r _); [apply Herr |].
    destruct (FormFile r "file") as [[file header]|e]; [| apply Herr].
    destruct (minio.PutObject _ _ _ _ _ _ _) as [[e|] s]; [apply Herr |].
    eexists. cbn [fst]. now rewrite wire_Write, wire_WriteHeader. }
  repeat split.
  - unfold uploadFileHandler. destruct (negb _); [apply Herr | apply Hproc].
  - unfold modifyFileHandler. destruct (negb _); [apply Herr |]. cbv zeta.
    destruct (String.eqb _ _); [apply Herr | apply Hproc].
  - unfold deleteFileHandler. destruct (negb _); [apply Herr |]. cbv zeta.
    destruct (String.eqb _ _); [apply Herr |].
    destruct (minio.RemoveObject _ _ _ _) as [[e|] s]; [apply Herr |].
    eexists. cbn [fst]. apply wire_Write.
  - unfold listFilesHandler. destruct (negb _); [apply Herr |]. cbv zeta.
    destruct (rangeObjects _ _) as [fileList|e]; [| apply Herr].
    eexists. cbn [fst]. now rewrite wire_Write.
  - unfold getPresignedURLHandler. destruct (negb _); [apply Herr |].
    cbv zeta. destruct (String.eqb _ _); [apply Herr |].
    destruct (minio.PresignedGetObject _ _ _ _ _) as [url|e]; [| apply Herr].
    eexists. cbn [fst]. now rewrite wire_Write, wire_WriteHeader.
Qed.

(** X5: the key is missing exactly when the path is the bare prefix (or
    empty): a DELETE, and a GET for a read grant, are answered with 400 in
    that case and in no other, and then nothing has been done; a PUT on the
    bare [/modify/] is turned away in the same way before the form is
    looked at. *)
Theorem missing_key_is_bad_request h w r env :
  status w = None ->
  (Method r = MethodDelete ->
   (status (fst (deleteFileHandler h w r env)) = Some StatusBadRequest <->
    URL_Path r = "/delete/" \/ URL_Path r = EmptyString)) /\
  (Method r = MethodGet ->
   (status (fst (getPresignedURLHandler h w r env)) = Some StatusBadRequest
    <-> URL_Path r = "/get-download-link/" \/ URL_Path r = EmptyString) /\
   (status (fst (getPresignedURLHandler h w r env)) = Some StatusBadRequest
    -> snd (getPresignedURLHandler h w r env) = env)) /\
  (Method r = MethodPut ->
   URL_Path r = "/modify/" \/ URL_Path r = EmptyString ->
   modifyFileHandler h w r env =
   (http.Error w
      "Object name is required in the URL path (e.g., /modify/myfile.png)"
      StatusBadRequest, env)).
Proof.
  intros Hw. split; [| split].
  - intros Hm. unfold deleteFileHandler. rewrite Hm.
    change (negb (String.eqb MethodDelete MethodDelete)) with false.
    cbv iota zeta.
    rewrite <- (TrimPrefix_empty_iff "/delete/" (URL_Path r)) by discriminate.
    destruct (String.eqb_spec (TrimPrefix (URL_Path r) "/delete/")
                EmptyString) as [E|E].
    + cbn [fst]. rewrite status_Error by exact Hw. tauto.
    + destruct (minio.RemoveObject _ _ _ _) as [[e|] s]; cbn [fst].
      * rewrite status_Error by exact Hw. split; [discriminate | tauto].
      * rewrite status_Write_fresh by exact Hw.
        split; [discriminate | tauto].
  - intros Hm. unfold getPresignedURLHandler. rewrite Hm.
    change (negb (String.eqb MethodGet MethodGet)) with false.
    cbv iota zeta.
    rewrite <- (TrimPrefix_empty_iff "/get-download-link/" (URL_Path r))
      by discriminate.
    destruct (String.eqb_spec (TrimPrefix (URL_Path r) "/get-download-link/")
                EmptyString) as [E|E].
    + cbn [fst snd]. rewrite status_Error by exact Hw. tauto.
    + destruct (minio.PresignedGetObject _ _ _ _ _) as [url|e]; cbn [fst snd].
      * rewrite (status_Write_committed _ _ StatusOK)
          by now apply status_WriteHeader.
        split; [split; [discriminate | tauto] | discriminate].
      * rewrite status_Error by exact Hw.
        split; [split; [discriminate | tauto] | discriminate].
  - intros Hm Hpath. unfold modifyFileHandler. rewrite Hm.
    change (negb (String.eqb MethodPut MethodPut)) with false.
    cbv iota zeta.
    apply (TrimPrefix_empty_iff "/modify/" (URL_Path r)) in Hpath;
      [| discriminate].
    rewrite Hpath. reflexivity.
Qed.

End MoreFacade.

(** ** More on List, the read grant and Delete *)

Section MoreList.

Context {Store : Type}.
Variable present : Store -> string -> string -> Prop.
Implicit Types (h : MinioHandler Store) (w : ResponseWriter).
Implicit Types (r : Request) (env : World Store).

(** The loop stops at the first element that carries an error and returns
    that error, whatever was collected and whatever follows. *)
Lemma rangeObjects_first_error (good rest : list minio.ObjectInfo)
    (bad : minio.ObjectInfo) (err : error) (acc : slice string) :
  Forall (fun o => minio.Err o = None) good ->
  minio.Err bad = Some err ->
  rangeObjects (good ++ bad :: rest) acc = inr err.
Proof.
  intros Hgood Hbad. revert acc.
  induction Hgood as [|o good Ho _ IH]; intros acc; simpl.
  - now rewrite Hbad.
  - rewrite Ho. apply IH.
Qed.

(** On a channel without errors the loop returns the keys in the order of
    delivery; the slice is nil only if nothing was delivered. *)
Lemma rangeObjects_all (objectCh : list minio.ObjectInfo) (acc : slice string) :
  Forall (fun o => minio.Err o = None) objectCh ->
  rangeObjects objectCh acc =
  inl (match objectCh with
       | [] => acc
       | _ :: _ => mk_slice (elems acc ++ List.map minio.Key objectCh)
       end).
Proof.
  intros H. revert acc. induction H as [|o l Ho Hl IH]; intros acc; simpl.
  - reflexivity.
  - rewrite Ho, IH. destruct l as [|o' l]; [reflexivity |].
    unfold append. cbn [elems]. now rewrite <- app_assoc.
Qed.

(** X6: one error anywhere in the enumeration makes the whole List fail: the
    answer is 500 with the fixed text and nothing else, the names met before
    the error are not sent, and the log gets the first error. *)
Theorem list_error_discards_names h w r env
    (good rest : list minio.ObjectInfo) (bad : minio.ObjectInfo)
    (err : error) :
  status w = None ->
  Method r = MethodGet ->
  minio.ListObjects (minioClient h) (store env) (bucketName h)
    = good ++ bad :: rest ->
  Forall (fun o => minio.Err o = None) good ->
  minio.Err bad = Some err ->
  let res := listFilesHandler h w r env in
  answered w (fst res) StatusInternalServerError "Failed to list files" /\
  logs (snd res) = logs env ++ ["Error listing object: " +:+ err] /\
  header (fst res) !! "Content-Type" = Some ["text/plain; charset=utf-8"].
Proof.
  intros Hw Hm Hl Hgood Hbad res. subst res.
  unfold listFilesHandler. rewrite Hm.
  change (negb (String.eqb MethodGet MethodGet)) with false.
  cbv iota zeta. rewrite Hl.
  rewrite (rangeObjects_first_error good rest bad err nil_slice Hgood Hbad).
  cbn [fst snd logs log_Print called].
  split; [now apply answered_Error |]. split; [reflexivity |].
  apply header_Error.
Qed.

(** X7: on a bucket that is not empty and whose enumeration meets no error,
    List answers 200 with content type [application/json] and one line: the
    JSON array of the keys, each once, in the order the backend delivered
    them. *)
Theorem list_names_in_order h w r env (first : minio.ObjectInfo)
    (others : list minio.ObjectInfo) :
  status w = None ->
  Method r = MethodGet ->
  minio.ListObjects (minioClient h) (store env) (bucketName h)
    = first :: others ->
  Forall (fun o => minio.Err o = None) (first :: others) ->
  let res := listFilesHandler h w r env in
  status (fst res) = Some StatusOK /\
  header (fst res) !! "Content-Type" = Some ["application/json"] /\
  wire (fst res) =
    wire w ++
    [Wrote ("[" +:+ json.join ","
                      (List.map json.quote
                         (List.map minio.Key (first :: others)))
            +:+ "]" +:+ LF)] /\
  logs (snd res) = logs env.
Proof.
  intros Hw Hm Hl Hgood res. subst res.
  unfold listFilesHandler. rewrite Hm.
  change (negb (String.eqb MethodGet MethodGet)) with false.
  cbv iota zeta. rewrite Hl.
  rewrite (rangeObjects_all (first :: others) nil_slice Hgood).
  cbn [fst snd logs called elems app].
  split; [now apply status_Write_fresh |]. split; [| split].
  - rewrite header_Write. unfold Header_Set. cbn [header].
    apply lookup_insert_eq.
  - rewrite wire_Write. cbn [wire Header_Set].
    unfold json.Encode_line, json.Marshal_strings.
    do 2 f_equal. f_equal.
    set (body := json.join "," _).
    generalize body. clear. intros body.
    change ("[" +:+ body +:+ "]") with (String "[" (body +:+ "]")).
    change ("[" +:+ body +:+ "]" +:+ LF)
      with (String "[" (body +:+ "]" +:+ LF)).
    change (String "[" (body +:+ "]") +:+ LF)
      with (String "[" ((body +:+ "]") +:+ LF)).
    f_equal. induction body as [|c b IH]; [reflexivity |].
    change (String c ((b +:+ "]") +:+ LF) = String c (b +:+ "]" +:+ LF)).
    now f_equal.
  - reflexivity.
Qed.

(** X8: whenever a DELETE of a non-empty key is answered with 200, over a
    store that honours the storage port, a List made right after it does
    not name the key, whether or not the key was there before. *)
Theorem deleted_key_is_not_listed h w w2 r r2 env key :
  StoragePort (minioClient h) present ->
  status w = None ->
  status w2 = None ->
  Method r = MethodDelete ->
  URL_Path r = "/delete/" +:+ key ->
  key <> EmptyString ->
  Method r2 = MethodGet ->
  status (fst (deleteFileHandler h w r env)) = Some StatusOK ->
  let res2 := listFilesHandler h w2 r2 (snd (deleteFileHandler h w r env)) in
  status (fst res2) = Some StatusInternalServerError \/
  exists fileList,
    ~ In key (elems fileList) /\
    status (fst res2) = Some StatusOK /\
    wire (fst res2) =
      wire w2 ++ [Wrote (json.Encode_line (json.Marshal_strings fileList))].
Proof.
  intros port Hw Hw2 Hm Hpath Hkey Hm2 Hok res2.
  destruct (remove_result_decides_answer h w r env key Hw Hm Hpath Hkey)
    as (Hstore & _ & Hans).
  destruct (fst (minio.RemoveObject _ _ _ _)) as [e|] eqn:Hrem.
  { destruct Hans as [[Hs _] _]. rewrite Hs in Hok. discriminate. }
  pose proof (remove_removes _ present port (store env) (bucketName h) key
                Hrem) as Hgone.
  destruct (list_outcome h w2 r2 (snd (deleteFileHandler h w r env)) Hw2 Hm2)
    as [_ Hlist].
  fold res2 in Hlist.
  destruct (rangeObjects _ _) as [fileList|e] eqn:Hrange; [| now left].
  right. exists fileList. split; [| exact Hlist].
  apply rangeObjects_ok in Hrange. destruct Hrange as [Hel Herr].
  rewrite Hel. simpl. intros Hin. apply in_map_iff in Hin.
  destruct Hin as [o [Hk Ho]].
  assert (Hp : present (store (snd (deleteFileHandler h w r env)))
                 (bucketName h) (minio.Key o)).
  { apply (list_present _ present port _ _ o Ho). now apply Herr. }
  rewrite Hk, Hstore in Hp. now apply Hgone.
Qed.

(** X9: a GET for a read grant on a non-empty key makes one call, whatever
    its outcome: a presign for the configured bucket, the key exactly as it
    stands in the path after the prefix, and a validity of five minutes,
    300 seconds in nanoseconds. A failure is logged with the key and the
    error. *)
Theorem grant_is_requested_for_five_minutes h w r env key :
  Method r = MethodGet ->
  URL_Path r = "/get-download-link/" +:+ key ->
  key <> EmptyString ->
  let res := getPresignedURLHandler h w r env in
  calls (snd res) =
    calls env ++
    [minio.CallPresignedGetObject (bucketName h) key (300 * 1000000000)] /\
  store (snd res) = store env /\
  match minio.PresignedGetObject (minioClient h) (store env) (bucketName h)
          key (300 * 1000000000) with
  | inl _ => logs (snd res) = logs env
  | inr err =>
      logs (snd res) =
        logs env ++ ["Error generating presigned URL for '" +:+ key +:+ "': "
                     +:+ err]
  end.
Proof.
  intros Hm Hpath Hkey res. subst res.
  rewrite (presign_unfold h w r env key Hm Hpath Hkey). cbv zeta.
  change (5 * Minute) with (300 * 1000000000).
  destruct (minio.PresignedGetObject _ _ _ _ _) as [url|e];
    cbn [fst snd calls store logs called log_Print]; repeat split.
Qed.

(** X10: the handlers that only read make at most one call on the client, and
    never a put or a remove, whatever the request. *)
Theorem readers_never_mutate h w r env :
  (exists added,
     calls (snd (listFilesHandler h w r env)) = calls env ++ added /\
     (List.length added <= 1)%nat /\
     forallb (fun c => negb (isMutation c)) added = true) /\
  (exists added,
     calls (snd (getPresignedURLHandler h w r env)) = calls env ++ added /\
     (List.length added <= 1)%nat /\
     forallb (fun c => negb (isMutation c)) added = true).
Proof.
  split.
  - unfold listFilesHandler. destruct (negb _).
    + exists []. cbn [snd]. rewrite app_nil_r. repeat split. simpl. lia.
    + cbv zeta. exists [minio.CallListObjects (bucketName h)].
      destruct (rangeObjects _ _); cbn [snd calls called log_Print];
        repeat split; simpl; lia.
  - unfold getPresignedURLHandler. destruct (negb _).
    + exists []. cbn [snd]. rewrite app_nil_r. repeat split. simpl. lia.
    + cbv zeta. destruct (String.eqb _ _).
      * exists []. cbn [snd]. rewrite app_nil_r. repeat split. simpl. lia.
      * exists [minio.CallPresignedGetObject (bucketName h)
                  (TrimPrefix (URL_Path r) "/get-download-link/")
                  (5 * Minute)].
        destruct (minio.PresignedGetObject _ _ _ _ _);
          cbn [snd calls called log_Print]; repeat split; simpl; lia.
Qed.

End MoreList.

(** ** More on the event stream bridge *)

Lemma flushedChunks_app (l1 l2 : list Action) :
  flushedChunks l1 = true ->
  flushedChunks (l1 ++ l2) = flushedChunks l2.
Proof.
  remember (List.length l1) as n eqn:Hn. revert l1 Hn.
  induction n as [n IH] using lt_wf_ind.
  intros [|[s|] [|[s'|] l]] Hn H; simpl in *; try discriminate.
  - reflexivity.
  - apply (IH (List.length l)); [subst n; simpl; lia | reflexivity | exact H].
Qed.

Lemma chunkCount_app (l1 l2 : list Action) :
  chunkCount (l1 ++ l2) = (chunkCount l1 + chunkCount l2)%nat.
Proof. unfold chunkCount. now rewrite List.filter_app, length_app. Qed.

Section MoreWatch.

Context {Store : Type} {Event : Type}.
Variable Marshal_Records : slice Event -> string + error.
Implicit Types (h : MinioHandler Store) (w : ResponseWriter).
Implicit Types (r : Request) (env : World Store).
Implicit Types (wakes pre post : list (Wake Event)).

Local Abbreviation loop := (watchLoop Marshal_Records).
Local Abbreviation watch := (watchBucketHandler Marshal_Records).


Lemma watchLoop_header w env wakes :
  header (fst (fst (loop w env wakes))) = header w.
Proof.
  revert w env. induction wakes as [|[n|] l IH]; intros w env; simpl.
  - reflexivity.
  - destruct (notification.Err n) as [e|].
    + cbn [fst]. now rewrite header_Flush, header_Write.
    + destruct (Marshal_Records _) as [j|e]; rewrite IH;
        [now rewrite header_Flush, header_Write | reflexivity].
  - reflexivity.
Qed.

Lemma watchLoop_flushed w env wakes :
  flushedChunks (wire w) = true ->
  flushedChunks (wire (fst (fst (loop w env wakes)))) = true.
Proof.
  revert w env. induction wakes as [|[n|] l IH]; intros w env Hw; simpl.
  - exact Hw.
  - destruct (notification.Err n) as [e|].
    + cbn [fst]. rewrite wire_Flush, wire_Write, <- app_assoc.
      now rewrite flushedChunks_app.
    + destruct (Marshal_Records _) as [j|e]; apply IH; [| exact Hw].
      rewrite wire_Flush, wire_Write, <- app_assoc.
      now rewrite flushedChunks_app.
  - exact Hw.
Qed.

Lemma watchLoop_count w env wakes :
  (chunkCount (wire (fst (fst (loop w env wakes))))
   <= chunkCount (wire w) + List.length wakes)%nat.
Proof.
  revert w env. induction wakes as [|[n|] l IH]; intros w env; simpl.
  - lia.
  - destruct (notification.Err n) as [e|].
    + cbn [fst]. rewrite wire_Flush, wire_Write, !chunkCount_app.
      change (chunkCount [Flushed]) with 0%nat.
      match goal with |- context [chunkCount [Wrote ?s]] =>
        change (chunkCount [Wrote s]) with 1%nat end.
      lia.
    + destruct (Marshal_Records _) as [j|e].
      * specialize (IH (Flush (Write w ("data: " +:+ j +:+ LF +:+ LF))) env).
        rewrite wire_Flush, wire_Write, !chunkCount_app in IH.
        change (chunkCount [Flushed]) with 0%nat in IH.
        change (chunkCount [Wrote ("data: " +:+ j +:+ LF +:+ LF)])
          with 1%nat in IH.
        lia.
      * specialize
          (IH w (log_Print env ("Error marshaling notification: " +:+ e))).
        lia.
  - lia.
Qed.

(** X11: when the client goes away while the session waits, the handler
    returns without writing anything: the wire is what it was, only the log
    gets a line, and what the subscription would still have delivered is
    never looked at. *)
Theorem disconnect_is_silent h w r env pre post w1 env1 :
  watch h w r env pre = (w1, env1, Waiting) ->
  watch h w r env (pre ++ ContextDone :: post) =
    (w1, log_Print env1 "SSE client disconnected.", Returned).
Proof.
  intros Hpre. rewrite (watch_app _ _ _ _ _ _ _ _ _ Hpre). reflexivity.
Qed.

(** X12: on a writer that cannot flush the handler gives up at once: 500 with
    the text [Streaming unsupported!] as plain text, no subscription opened,
    the world untouched, whatever the trace. *)
Theorem no_flusher_no_stream h w r env wakes :
  status w = None ->
  flusher w = false ->
  let res := watch h w r env wakes in
  snd res = Returned /\
  snd (fst res) = env /\
  answered w (fst (fst res)) StatusInternalServerError
    "Streaming unsupported!" /\
  header (fst (fst res)) !! "Content-Type"
    = Some ["text/plain; charset=utf-8"].
Proof.
  intros Hw Hf res. subst res. unfold watchBucketHandler.
  cbn [flusher Header_Set]. rewrite Hf. cbn [negb fst snd].
  split; [reflexivity |]. split; [reflexivity |]. split.
  - split; [apply status_Error; exact Hw | now rewrite wire_Error].
  - apply header_Error.
Qed.

(** X13: a notification whose record set cannot be marshalled is dropped: no
    frame, no flush, one line in the log, and the session goes on
    waiting. *)
Theorem unmarshalable_notification_is_skipped h w r env pre w1 env1
    (n : notification.Info Event) (err : error) :
  watch h w r env pre = (w1, env1, Waiting) ->
  notification.Err n = None ->
  Marshal_Records (notification.Records n) = inr err ->
  watch h w r env (pre ++ [Received n]) =
    (w1, log_Print env1 ("Error marshaling notification: " +:+ err), Waiting).
Proof.
  intros Hpre He Hm. rewrite (watch_app _ _ _ _ _ _ _ _ _ Hpre). simpl.
  now rewrite He, Hm.
Qed.


(** X15: nothing is left in a buffer: on a writer that can flush and starts
    with every chunk flushed, every chunk the handler writes, the opening
    comment, each data frame and the error frame, is followed at once by a
    flush. *)
Theorem every_chunk_is_flushed h w r env wakes :
  flusher w = true ->
  flushedChunks (wire w) = true ->
  flushedChunks (wire (fst (fst (watch h w r env wakes)))) = true.
Proof.
  intros Hf Hw. rewrite watch_unfold by exact Hf.
  apply watchLoop_flushed.
  rewrite wire_Flush, wire_Write, <- app_assoc. cbn [wire Header_Set].
  now rewrite flushedChunks_app.
Qed.

(** X16: the handler writes at most one chunk per wake-up of the session, after
    the one chunk that opens the stream (or refuses it). *)
Theorem at_most_one_frame_per_wakeup h w r env wakes :
  (chunkCount (wire (fst (fst (watch h w r env wakes))))
   <= chunkCount (wire w) + 1 + List.length wakes)%nat.
Proof.
  unfold watchBucketHandler. cbn [flusher Header_Set].
  destruct (flusher w); cbn [negb fst].
  - match goal with |- context [loop ?w0 ?e0 wakes] =>
      pose proof (watchLoop_count w0 e0 wakes) as H end.
    rewrite wire_Flush, wire_Write, !chunkCount_app in H.
    cbn [wire Header_Set] in H.
    change (chunkCount [Wrote (": connection established" +:+ LF +:+ LF)])
      with 1%nat in H.
    change (chunkCount [Flushed]) with 0%nat in H. lia.
  - rewrite wire_Error, chunkCount_app. cbn [wire Header_Set].
    change (chunkCount [Wrote ("Streaming unsupported!" +:+ LF)])
      with 1%nat. lia.
Qed.

(** X17: on a writer that can flush, the response carries the three headers of
    an event stream, and the loop never touches them again. *)
Theorem stream_headers_are_set h w r env wakes :
  flusher w = true ->
  let w' := fst (fst (watchBucketHandler Marshal_Records h w r env wakes)) in
  header w' !! "Content-Type" = Some ["text/event-stream"] /\
  header w' !! "Cache-Control" = Some ["no-cache"] /\
  header w' !! "Connection" = Some ["keep-alive"].
Proof.
  intros Hf w'. subst w'. rewrite watch_unfold by exact Hf.
  rewrite watchLoop_header, header_Flush, header_Write.
  unfold Header_Set. cbn [header]. repeat split.
  - rewrite !lookup_insert_ne by discriminate. apply lookup_insert_eq.
  - rewrite lookup_insert_ne by discriminate. apply lookup_insert_eq.
  - apply lookup_insert_eq.
Qed.

End MoreWatch.

(** ** Start-up *)

Section Startup.

Import startup.

Context {Store : Type}.
Implicit Types (host : Host Store) (s : Store).

(** The options [main] builds from the environment. *)
Local Abbreviation optionsOf host :=
  {| Creds := {| AccessKeyID := Getenv host "MINIO_ACCESS_KEY";
                 SecretAccessKey := Getenv host "MINIO_SECRET_KEY";
                 SessionToken := EmptyString |};
     Secure := true;
     BucketLookup := BucketLookupPath |}.

Local Abbreviation configured host :=
  (Getenv host "MINIO_ENDPOINT" <> EmptyString /\
   Getenv host "MINIO_ACCESS_KEY" <> EmptyString /\
   Getenv host "MINIO_SECRET_KEY" <> EmptyString /\
   Getenv host "MINIO_BUCKET" <> EmptyString).

Lemma configured_guard host :
  isEmpty (Getenv host "MINIO_ENDPOINT")
  || isEmpty (Getenv host "MINIO_ACCESS_KEY")
  || isEmpty (Getenv host "MINIO_SECRET_KEY")
  || isEmpty (Getenv host "MINIO_BUCKET") = false <-> configured host.
Proof.
  unfold isEmpty.
  destruct (String.eqb_spec (Getenv host "MINIO_ENDPOINT") EmptyString);
  destruct (String.eqb_spec (Getenv host "MINIO_ACCESS_KEY") EmptyString);
  destruct (String.eqb_spec (Getenv host "MINIO_SECRET_KEY") EmptyString);
  destruct (String.eqb_spec (Getenv host "MINIO_BUCKET") EmptyString);
  simpl; intuition congruence.
Qed.

(** X18: when one of the four settings is missing or empty, [main] ends in
    [log.Fatal] with the line that names the four settings, before a client
    is asked for: no bucket call is made and the store is not touched. *)
Theorem incomplete_configuration_is_fatal host s :
  Getenv host "MINIO_ENDPOINT" = EmptyString \/
  Getenv host "MINIO_ACCESS_KEY" = EmptyString \/
  Getenv host "MINIO_SECRET_KEY" = EmptyString \/
  Getenv host "MINIO_BUCKET" = EmptyString ->
  exit (main host s) = Fatal /\
  bucketCalls (main host s) = [] /\
  remote (main host s) = s /\
  exists before,
    lines (main host s) = before ++
      ["Error: MINIO_ENDPOINT, MINIO_ACCESS_KEY, MINIO_SECRET_KEY, and MINIO_BUCKET environment variables must be set."].
Proof.
  intros H. unfold main.
  destruct (isEmpty (Getenv host "MINIO_ENDPOINT")
            || isEmpty (Getenv host "MINIO_ACCESS_KEY")
            || isEmpty (Getenv host "MINIO_SECRET_KEY")
            || isEmpty (Getenv host "MINIO_BUCKET")) eqn:E.
  - cbn [exit bucketCalls remote lines]. repeat split. eauto.
  - apply configured_guard in E. tauto.
Qed.

Lemma serve_exit host (conn : Connection Store) bucket ls calls s
    handler routes addr :
  exit (serve host conn bucket ls calls s) = Serving handler routes addr <->
  ListenAndServe host ":8080" = None /\
  handler = {| minioClient := client conn; bucketName := bucket |} /\
  routes = [ ("/upload", uploadFileHandler);
             ("/modify/", modifyFileHandler);
             ("/delete/", deleteFileHandler);
             ("/list", listFilesHandler);
             ("/watch", watchBucketHandler);
             ("/get-download-link/", getPresignedURLHandler) ] /\
  addr = ":8080".
Proof.
  unfold serve. cbv zeta.
  change (":" +:+ "8080") with ":8080".
  destruct (ListenAndServe host ":8080") as [e|]; cbn [exit].
  - split; [discriminate | intros [H _]; discriminate].
  - split.
    + intros H. injection H as <- <- <-. repeat split.
    + intros (_ & -> & -> & ->). reflexivity.
Qed.

(** X19: [main] gets to serve exactly when the four settings are there, the
    client could be made (over TLS, with path-style bucket lookup), the
    bucket was created or, creation having failed, was confirmed to exist
    without error, and the server did not fail to start. The handler it
    serves with then holds that client and the bucket name of the
    environment, the six routes are registered and the address is
    [:8080]. *)
Theorem main_serves_iff host s handler routes addr :
  exit (main host s) = Serving handler routes addr <->
  configured host /\
  exists conn,
    minio_New host (Getenv host "MINIO_ENDPOINT") (optionsOf host)
      = inl conn /\
    (fst (MakeBucket conn s (Getenv host "MINIO_BUCKET")) = None \/
     (fst (MakeBucket conn s (Getenv host "MINIO_BUCKET")) <> None /\
      BucketExists conn
        (snd (MakeBucket conn s (Getenv host "MINIO_BUCKET")))
        (Getenv host "MINIO_BUCKET") = (true, None))) /\
    ListenAndServe host ":8080" = None /\
    handler = {| minioClient := client conn;
                 bucketName := Getenv host "MINIO_BUCKET" |} /\
    routes = [ ("/upload", uploadFileHandler);
               ("/modify/", modifyFileHandler);
               ("/delete/", deleteFileHandler);
               ("/list", listFilesHandler);
               ("/watch", watchBucketHandler);
               ("/get-download-link/", getPresignedURLHandler) ] /\
    addr = ":8080".
Proof.
  unfold main. cbv zeta.
  destruct (isEmpty (Getenv host "MINIO_ENDPOINT")
            || isEmpty (Getenv host "MINIO_ACCESS_KEY")
            || isEmpty (Getenv host "MINIO_SECRET_KEY")
            || isEmpty (Getenv host "MINIO_BUCKET")) eqn:E.
  { cbn [exit]. split; [discriminate |].
    intros [Hc _]. apply configured_guard in Hc. congruence. }
  apply configured_guard in E.
  destruct (minio_New host _ _) as [conn|e] eqn:Hnew.
  2:{ cbn [exit]. split; [discriminate |].
      intros (_ & conn & Hc & _). discriminate. }
  destruct (MakeBucket conn s _) as [[err|] s1] eqn:Hmk; cbn [fst snd].
  - destruct (BucketExists conn s1 _) as [ex [e2|]] eqn:Hex.
    + cbn [exit]. split; [discriminate |].
      intros (_ & conn' & Hc & [H|[_ H]] & _);
        injection Hc as <-; rewrite Hmk in H; cbn [fst snd] in H;
        [discriminate | rewrite Hex in H; discriminate].
    + destruct ex.
      * rewrite serve_exit. split.
        -- intros (Hl & Hh & Hr & Ha). split; [exact E |].
           exists conn. rewrite Hmk. cbn [fst snd]. rewrite Hex.
           repeat split; auto.
        -- intros (_ & conn' & Hc & _ & Hl & Hh & Hr & Ha).
           injection Hc as <-. auto.
      * cbn [exit]. split; [discriminate |].
        intros (_ & conn' & Hc & [H|[_ H]] & _);
          injection Hc as <-; rewrite Hmk in H; cbn [fst snd] in H;
          [discriminate | rewrite Hex in H; discriminate].
  - rewrite serve_exit. split.
    + intros (Hl & Hh & Hr & Ha). split; [exact E |].
      exists conn. rewrite Hmk. cbn [fst snd]. repeat split; auto.
    + intros (_ & conn' & Hc & _ & Hl & Hh & Hr & Ha).
      injection Hc as <-. auto.
Qed.

(** X20: when the bucket cannot be created and its existence is not confirmed,
    because the check says no or because the check itself fails, [main] ends
    in [log.Fatal] after exactly the two bucket calls, and the line it logs
    carries the error of the creation, never that of the check. *)
Theorem unconfirmed_bucket_is_fatal host s (conn : Connection Store)
    (err : error) (s1 : Store) (found : bool) (checkErr : option error) :
  configured host ->
  minio_New host (Getenv host "MINIO_ENDPOINT") (optionsOf host) = inl conn ->
  MakeBucket conn s (Getenv host "MINIO_BUCKET") = (Some err, s1) ->
  BucketExists conn s1 (Getenv host "MINIO_BUCKET") = (found, checkErr) ->
  found = false \/ checkErr <> None ->
  exit (main host s) = Fatal /\
  bucketCalls (main host s) =
    [CallMakeBucket (Getenv host "MINIO_BUCKET");
     CallBucketExists (Getenv host "MINIO_BUCKET")] /\
  remote (main host s) = s1 /\
  exists before,
    lines (main host s) =
      before ++ ["Error creating/checking bucket: " +:+ err].
Proof.
  intros Hc Hnew Hmk Hex Hno. unfold main. cbv zeta.
  apply configured_guard in Hc. rewrite Hc, Hnew, Hmk, Hex.
  assert (Hguard : match checkErr with
                   | Some _ => false
                   | None => found
                   end = false).
  { destruct checkErr; [reflexivity |]. destruct Hno; [assumption | easy]. }
  rewrite Hguard. cbn [exit bucketCalls remote lines].
  repeat split. eauto.
Qed.

End Startup.

(** ** The download handler *)

Lemma copied_cons (chunk : File) (reads : list File) :
  copied (chunk :: reads) =
  match chunk with
  | [] => copied reads
  | _ :: _ => Wrote (String.string_of_list_byte chunk) :: copied reads
  end.
Proof. unfold copied. simpl. now destruct chunk. Qed.

(** A copy returns the error that ended the reading, writes the chunks in
    order, leaves the headers alone, and commits 200 with the first chunk
    it writes if nothing was committed before. *)
Lemma io_Copy_spec (w : ResponseWriter) (reads : list File)
    (readErr : option error) :
  snd (io_Copy w reads readErr) = readErr /\
  wire (fst (io_Copy w reads readErr)) = wire w ++ copied reads /\
  header (fst (io_Copy w reads readErr)) = header w /\
  status (fst (io_Copy w reads readErr)) =
    match copied reads, status w with
    | [], st => st
    | _ :: _, Some code => Some code
    | _ :: _, None => Some StatusOK
    end.
Proof.
  revert w. induction reads as [|chunk reads IH]; intros w.
  - simpl. rewrite app_nil_r. repeat split.
  - cbn [io_Copy]. rewrite copied_cons. destruct chunk as [|b chunk].
    + apply IH.
    + destruct (IH (Write w (string_of_list_byte (b :: chunk))))
        as (H1 & H2 & H3 & H4).
      rewrite H1, H2, H3, H4, wire_Write, header_Write, <- app_assoc.
      repeat split.
      destruct (status w) as [code|] eqn:Hs.
      * rewrite (status_Write_committed _ _ code Hs).
        now destruct (copied reads).
      * rewrite (status_Write_fresh _ _ Hs). now destruct (copied reads).
Qed.

Section MoreDownload.

Context {Store : Type}.
Variable GetObject : Store -> string -> string -> object.Object + error.
Implicit Types (h : MinioHandler Store) (w : ResponseWriter).
Implicit Types (r : Request) (env : World Store).

Local Abbreviation download := (downloadFileHandler GetObject).

Lemma download_unfold h w r env key :
  Method r = MethodGet ->
  URL_Path r = "/download/" +:+ key ->
  key <> EmptyString ->
  download h w r env =
  match GetObject (store env) (bucketName h) key with
  | inr err =>
      (http.Error w "File not found" StatusNotFound,
       log_Print env ("Error getting object: " +:+ err))
  | inl obj =>
      match object.Stat obj with
      | inr _ =>
          (http.Error w "Could not get object stats"
             StatusInternalServerError, env)
      | inl stat =>
          let w1 :=
            Header_Set
              (Header_Set
                 (Header_Set w "Content-Disposition"
                    ("attachment; filename=" +:+ DQUOTE +:+ key +:+ DQUOTE))
                 "Content-Type" (object.ContentType stat))
              "Content-Length" (pretty (object.Size stat)) in
          let copy := io_Copy w1 (object.reads obj) (object.readErr obj) in
          match snd copy with
          | Some _ =>
              (http.Error (fst copy) "Failed to write file to response"
                 StatusInternalServerError, env)
          | None => (fst copy, env)
          end
      end
  end.
Proof.
  intros Hm Hpath Hkey. unfold downloadFileHandler. rewrite Hm, Hpath.
  change (negb (String.eqb MethodGet MethodGet)) with false.
  cbv iota zeta. rewrite TrimPrefix_app.
  destruct (String.eqb_spec key EmptyString); [contradiction |].
  destruct (GetObject _ _ _) as [obj|e]; [| reflexivity].
  destruct (object.Stat obj) as [stat|e]; [| reflexivity].
  now destruct (io_Copy _ _ _) as [w2 [e|]].
Qed.

(** X21: a download that cannot start sends nothing of the object: an error of
    [GetObject] is answered with 404 and logged, an error of [Stat] with 500
    and not logged, each with its fixed text as the only line. *)
Theorem download_failures h w r env key (obj : object.Object) :
  status w = None ->
  Method r = MethodGet ->
  URL_Path r = "/download/" +:+ key ->
  key <> EmptyString ->
  (forall err, GetObject (store env) (bucketName h) key = inr err ->
     answered w (fst (download h w r env)) StatusNotFound "File not found" /\
     snd (download h w r env) =
       log_Print env ("Error getting object: " +:+ err)) /\
  (forall err, GetObject (store env) (bucketName h) key = inl obj ->
     object.Stat obj = inr err ->
     answered w (fst (download h w r env)) StatusInternalServerError
       "Could not get object stats" /\
     snd (download h w r env) = env).
Proof.
  intros Hw Hm Hpath Hkey.
  rewrite (download_unfold h w r env key Hm Hpath Hkey). split.
  - intros err Hg. rewrite Hg. cbn [fst snd].
    split; [now apply answered_Error | reflexivity].
  - intros err Hg Hs. rewrite Hg, Hs. cbn [fst snd].
    split; [now apply answered_Error | reflexivity].
Qed.

(** X22: a download that reads the object to its end is sent with status 200,
    the content type and the length that [Stat] gave, the key as the file
    name of an attachment, and the chunks read as the body, in order. The
    world is left as it was. *)
Theorem download_sends_object h w r env key (obj : object.Object)
    (stat : object.StatInfo) :
  status w = None ->
  Method r = MethodGet ->
  URL_Path r = "/download/" +:+ key ->
  key <> EmptyString ->
  GetObject (store env) (bucketName h) key = inl obj ->
  object.Stat obj = inl stat ->
  object.readErr obj = None ->
  let res := download h w r env in
  sentStatus (fst res) = StatusOK /\
  wire (fst res) = wire w ++ copied (object.reads obj) /\
  header (fst res) !! "Content-Type" = Some [object.ContentType stat] /\
  header (fst res) !! "Content-Length" = Some [pretty (object.Size stat)] /\
  header (fst res) !! "Content-Disposition" =
    Some ["attachment; filename=" +:+ DQUOTE +:+ key +:+ DQUOTE] /\
  snd res = env.
Proof.
  intros Hw Hm Hpath Hkey Hg Hs He res. subst res.
  rewrite (download_unfold h w r env key Hm Hpath Hkey), Hg, Hs, He.
  cbv zeta.
  match goal with |- context [io_Copy ?w1 ?l ?e] =>
    destruct (io_Copy_spec w1 l e) as (H1 & H2 & H3 & H4) end.
  rewrite H1. cbn [fst snd]. rewrite H2, H3.
  unfold sentStatus. rewrite H4. cbn [status wire header Header_Set].
  rewrite Hw. repeat split.
  - now destruct (copied _).
  - rewrite lookup_insert_ne by discriminate. apply lookup_insert_eq.
  - apply lookup_insert_eq.
  - rewrite !lookup_insert_ne by discriminate. apply lookup_insert_eq.
Qed.


End MoreDownload.

(** ** The further properties at work *)

Lemma put_result_decides_answer_witness :
  status (fst (processAndUploadFile MemStore.handler Samples.plain
                 Samples.notes EmptyString Samples.start))
    = Some StatusCreated /\
  answered Samples.plain
    (fst (processAndUploadFile Samples.downHandler Samples.plain
            Samples.notes EmptyString Samples.start))
    StatusInternalServerError "Failed to upload file".
Proof.
  split.
  - destruct (put_result_decides_answer MemStore.handler Samples.plain
                Samples.notes EmptyString Samples.start Examples.smallFile
                (Examples.named "notes.txt" Examples.smallFile)
                eq_refl eq_refl eq_refl) as [_ H].
    exact (proj1 H).
  - destruct (put_result_decides_answer Samples.downHandler Samples.plain
                Samples.notes EmptyString Samples.start Examples.smallFile
                (Examples.named "notes.txt" Examples.smallFile)
                eq_refl eq_refl eq_refl) as [_ H].
    exact (proj1 H).
Defined.

Lemma remove_result_decides_answer_witness :
  status (fst (deleteFileHandler MemStore.handler Samples.plain
                 (Examples.bare "DELETE" "/delete/report.pdf")
                 Samples.start))
    = Some StatusOK /\
  answered Samples.plain
    (fst (deleteFileHandler Samples.downHandler Samples.plain
            (Examples.bare "DELETE" "/delete/report.pdf") Samples.start))
    StatusInternalServerError "Failed to delete file".
Proof.
  split.
  - destruct (remove_result_decides_answer MemStore.handler Samples.plain
                (Examples.bare "DELETE" "/delete/report.pdf") Samples.start
                "report.pdf" eq_refl eq_refl eq_refl) as (_ & _ & H);
      [discriminate |].
    exact (proj1 H).
  - destruct (remove_result_decides_answer Samples.downHandler Samples.plain
                (Examples.bare "DELETE" "/delete/report.pdf") Samples.start
                "report.pdf" eq_refl eq_refl eq_refl) as (_ & _ & H);
      [discriminate |].
    exact (proj1 H).
Defined.

Lemma errors_carry_fixed_texts_witness :
  exists msg, In msg errorTexts /\
    answered Samples.plain
      (fst (listFilesHandler Samples.downHandler Samples.plain
              (Examples.bare "GET" "/list") Samples.start))
      StatusInternalServerError msg.
Proof.
  destruct (errors_carry_fixed_texts Samples.downHandler Samples.plain
              (Examples.bare "GET" "/list") Samples.start
              StatusInternalServerError eq_refl)
    as (_ & _ & _ & H & _).
  - unfold StatusInternalServerError. lia.
  - apply H. reflexivity.
Defined.

Lemma missing_key_is_bad_request_witness :
  status (fst (deleteFileHandler MemStore.handler Samples.plain
                 (Examples.bare "DELETE" "/delete/") Samples.start))
    = Some StatusBadRequest /\
  snd (getPresignedURLHandler MemStore.handler Samples.plain
         (Examples.bare "GET" "/get-download-link/") Samples.start)
    = Samples.start.
Proof.
  split.
  - destruct (missing_key_is_bad_request MemStore.handler Samples.plain
                (Examples.bare "DELETE" "/delete/") Samples.start eq_refl)
      as (H & _ & _).
    apply (H eq_refl). left. reflexivity.
  - destruct (missing_key_is_bad_request MemStore.handler Samples.plain
                (Examples.bare "GET" "/get-download-link/") Samples.start
                eq_refl) as (_ & H & _).
    destruct (H eq_refl) as [Hiff Henv].
    apply Henv, Hiff. left. reflexivity.
Defined.

Lemma list_error_discards_names_witness :
  answered Samples.plain
    (fst (listFilesHandler Samples.flakyHandler Samples.plain
            (Examples.bare "GET" "/list") Samples.start))
    StatusInternalServerError "Failed to list files" /\
  logs (snd (listFilesHandler Samples.flakyHandler Samples.plain
               (Examples.bare "GET" "/list") Samples.start))
    = ["Error listing object: connection reset by peer"].
Proof.
  destruct (list_error_discards_names Samples.flakyHandler Samples.plain
              (Examples.bare "GET" "/list") Samples.start
              [ {| minio.Key := "a.txt"; minio.Err := None |} ]
              [ {| minio.Key := "b.txt"; minio.Err := None |} ]
              {| minio.Key := EmptyString;
                 minio.Err := Some "connection reset by peer" |}
              "connection reset by peer" eq_refl eq_refl eq_refl)
    as (H1 & H2 & _).
  - repeat constructor.
  - reflexivity.
  - split; [exact H1 | exact H2].
Defined.

Lemma list_names_in_order_witness :
  wire (fst (listFilesHandler MemStore.handler Samples.plain
               (Examples.bare "GET" "/list") Samples.start))
    = [Wrote ("[" +:+ DQUOTE +:+ "report.pdf" +:+ DQUOTE +:+ "]" +:+ LF)].
Proof.
  destruct (list_names_in_order MemStore.handler Samples.plain
              (Examples.bare "GET" "/list") Samples.start
              {| minio.Key := "report.pdf"; minio.Err := None |} []
              eq_refl eq_refl eq_refl) as (_ & _ & H & _).
  - repeat constructor.
  - exact H.
Defined.

Lemma deleted_key_is_not_listed_witness :
  status (fst (listFilesHandler MemStore.handler Samples.plain
                 (Examples.bare "GET" "/list")
                 (snd (deleteFileHandler MemStore.handler Samples.plain
                         (Examples.bare "DELETE" "/delete/report.pdf")
                         Samples.start))))
    = Some StatusInternalServerError \/
  exists fileList,
    ~ In "report.pdf" (elems fileList) /\
    status (fst (listFilesHandler MemStore.handler Samples.plain
                   (Examples.bare "GET" "/list")
                   (snd (deleteFileHandler MemStore.handler Samples.plain
                           (Examples.bare "DELETE" "/delete/report.pdf")
                           Samples.start))))
      = Some StatusOK /\
    wire (fst (listFilesHandler MemStore.handler Samples.plain
                 (Examples.bare "GET" "/list")
                 (snd (deleteFileHandler MemStore.handler Samples.plain
                         (Examples.bare "DELETE" "/delete/report.pdf")
                         Samples.start))))
      = wire Samples.plain
        ++ [Wrote (json.Encode_line (json.Marshal_strings fileList))].
Proof.
  apply (deleted_key_is_not_listed MemStore.present MemStore.handler
           Samples.plain Samples.plain
           (Examples.bare "DELETE" "/delete/report.pdf")
           (Examples.bare "GET" "/list") Samples.start "report.pdf"
           MemStore_port eq_refl eq_refl eq_refl eq_refl);
    [discriminate | reflexivity | reflexivity].
Defined.

Lemma grant_is_requested_for_five_minutes_witness :
  calls (snd (getPresignedURLHandler MemStore.handler Samples.plain
                (Examples.bare "GET" "/get-download-link/2024/report.pdf")
                Samples.start))
    = [minio.CallPresignedGetObject "testbucket" "2024/report.pdf"
         300000000000].
Proof.
  destruct (grant_is_requested_for_five_minutes MemStore.handler
              Samples.plain
              (Examples.bare "GET" "/get-download-link/2024/report.pdf")
              Samples.start "2024/report.pdf" eq_refl eq_refl)
    as (H & _); [discriminate |].
  exact H.
Defined.

Lemma disconnect_is_silent_witness :
  wire (fst (fst (watchBucketHandler Examples.Marshal_Records
                    MemStore.handler Samples.streaming
                    (Examples.bare "GET" "/watch") Samples.start
                    ([Received (Examples.created "foo.txt")]
                     ++ ContextDone
                     :: [Received (Examples.created "bar.txt")])))) =
  wire (fst (fst (watchBucketHandler Examples.Marshal_Records
                    MemStore.handler Samples.streaming
                    (Examples.bare "GET" "/watch") Samples.start
                    [Received (Examples.created "foo.txt")]))).
Proof.
  pose (before := watchBucketHandler Examples.Marshal_Records
                    MemStore.handler Samples.streaming
                    (Examples.bare "GET" "/watch") Samples.start
                    [Received (Examples.created "foo.txt")]).
  rewrite (disconnect_is_silent Examples.Marshal_Records MemStore.handler
             Samples.streaming (Examples.bare "GET" "/watch") Samples.start
             [Received (Examples.created "foo.txt")]
             [Received (Examples.created "bar.txt")]
             (fst (fst before)) (snd (fst before)) eq_refl).
  reflexivity.
Defined.

Lemma no_flusher_no_stream_witness :
  answered Samples.plain
    (fst (fst (watchBucketHandler Examples.Marshal_Records MemStore.handler
                 Samples.plain (Examples.bare "GET" "/watch") Samples.start
                 [Received (Examples.created "foo.txt")])))
    StatusInternalServerError "Streaming unsupported!".
Proof.
  destruct (no_flusher_no_stream Examples.Marshal_Records MemStore.handler
              Samples.plain (Examples.bare "GET" "/watch") Samples.start
              [Received (Examples.created "foo.txt")] eq_refl eq_refl)
    as (_ & _ & H & _).
  exact H.
Defined.

Lemma unmarshalable_notification_is_skipped_witness :
  wire (fst (fst (watchBucketHandler Samples.strictMarshal MemStore.handler
                    Samples.streaming (Examples.bare "GET" "/watch")
                    Samples.start ([] ++ [Received Samples.hollow])))) =
  [Wrote establishedFrame; Flushed].
Proof.
  pose (before := watchBucketHandler Samples.strictMarshal MemStore.handler
                    Samples.streaming (Examples.bare "GET" "/watch")
                    Samples.start []).
  rewrite (unmarshalable_notification_is_skipped Samples.strictMarshal
             MemStore.handler Samples.streaming
             (Examples.bare "GET" "/watch") Samples.start []
             (fst (fst before)) (snd (fst before)) Samples.hollow
             "json: unsupported value" eq_refl eq_refl eq_refl).
  reflexivity.
Defined.


Lemma every_chunk_is_flushed_witness :
  flushedChunks
    (wire (fst (fst (watchBucketHandler Examples.Marshal_Records
                       MemStore.handler Samples.streaming
                       (Examples.bare "GET" "/watch") Samples.start
                       [Received (Examples.created "foo.txt");
                        Received Examples.broken])))) = true.
Proof.
  apply (every_chunk_is_flushed Examples.Marshal_Records MemStore.handler
           Samples.streaming (Examples.bare "GET" "/watch") Samples.start
           [Received (Examples.created "foo.txt"); Received Examples.broken]);
    reflexivity.
Defined.

Lemma stream_headers_are_set_witness :
  header (fst (fst (watchBucketHandler Examples.Marshal_Records
                      MemStore.handler Samples.streaming
                      (Examples.bare "GET" "/watch") Samples.start
                      [Received (Examples.created "foo.txt")])))
    !! "Content-Type" = Some ["text/event-stream"].
Proof.
  destruct (stream_headers_are_set Examples.Marshal_Records MemStore.handler
              Samples.streaming (Examples.bare "GET" "/watch") Samples.start
              [Received (Examples.created "foo.txt")] eq_refl) as (H & _).
  exact H.
Defined.

Lemma incomplete_configuration_is_fatal_witness :
  startup.exit (startup.main (Samples.host EmptyString Samples.owned)
                  Examples.report) = startup.Fatal /\
  startup.bucketCalls (startup.main (Samples.host EmptyString Samples.owned)
                         Examples.report) = [].
Proof.
  destruct (incomplete_configuration_is_fatal
              (Samples.host EmptyString Samples.owned) Examples.report)
    as (H1 & H2 & _).
  - right. right. right. reflexivity.
  - split; [exact H1 | exact H2].
Defined.

Lemma main_serves_iff_witness :
  exists handler routes,
    startup.exit (startup.main (Samples.host "testbucket" Samples.owned)
                    Examples.report)
    = startup.Serving handler routes ":8080" /\
    bucketName handler = "testbucket" /\
    List.length routes = 6%nat.
Proof.
  eexists. eexists. split; [| split].
  - apply (main_serves_iff (Samples.host "testbucket" Samples.owned)
             Examples.report).
    split; [repeat split; discriminate |].
    exists Samples.owned. split; [reflexivity |].
    split; [right; split; [discriminate | reflexivity] |].
    split; [reflexivity |]. split; [reflexivity |].
    split; reflexivity.
  - reflexivity.
  - reflexivity.
Defined.

Lemma unconfirmed_bucket_is_fatal_witness :
  startup.exit (startup.main (Samples.host "testbucket" Samples.denied)
                  Examples.report) = startup.Fatal /\
  startup.bucketCalls (startup.main (Samples.host "testbucket" Samples.denied)
                         Examples.report)
    = [startup.CallMakeBucket "testbucket";
       startup.CallBucketExists "testbucket"].
Proof.
  destruct (unconfirmed_bucket_is_fatal
              (Samples.host "testbucket" Samples.denied) Examples.report
              Samples.denied "Access Denied." Examples.report false
              (Some "Access Denied.")) as (H1 & H2 & _).
  - repeat split; discriminate.
  - reflexivity.
  - reflexivity.
  - reflexivity.
  - left. reflexivity.
  - split; [exact H1 | exact H2].
Defined.

Lemma download_failures_witness :
  answered Samples.plain
    (fst (downloadFileHandler Samples.getNothing MemStore.handler
            Samples.plain (Examples.bare "GET" "/download/report.pdf")
            Samples.start))
    StatusNotFound "File not found" /\
  answered Samples.plain
    (fst (downloadFileHandler Samples.getObject MemStore.handler
            Samples.plain (Examples.bare "GET" "/download/missing.txt")
            Samples.start))
    StatusInternalServerError "Could not get object stats".
Proof.
  split.
  - destruct (download_failures Samples.getNothing MemStore.handler
                Samples.plain (Examples.bare "GET" "/download/report.pdf")
                Samples.start "report.pdf"
                {| object.Stat := inr EmptyString; object.reads := [];
                   object.readErr := None |}
                eq_refl eq_refl eq_refl) as (H & _); [discriminate |].
    exact (proj1 (H _ eq_refl)).
  - destruct (download_failures Samples.getObject MemStore.handler
                Samples.plain (Examples.bare "GET" "/download/missing.txt")
                Samples.start "missing.txt"
                {| object.Stat := inr "The specified key does not exist.";
                   object.reads := [];
                   object.readErr :=
                     Some "The specified key does not exist." |}
                eq_refl eq_refl eq_refl) as (_ & H); [discriminate |].
    exact (proj1 (H _ eq_refl eq_refl)).
Defined.

Lemma download_sends_object_witness :
  wire (fst (downloadFileHandler Samples.getObject MemStore.handler
               Samples.plain (Examples.bare "GET" "/download/report.pdf")
               Samples.start)) = [Wrote "hi"] /\
  header (fst (downloadFileHandler Samples.getObject MemStore.handler
                 Samples.plain (Examples.bare "GET" "/download/report.pdf")
                 Samples.start)) !! "Content-Length" = Some ["2"].
Proof.
  destruct (download_sends_object Samples.getObject MemStore.handler
              Samples.plain (Examples.bare "GET" "/download/report.pdf")
              Samples.start "report.pdf"
              {| object.Stat :=
                   inl {| object.ContentType := "application/pdf";
                          object.Size := 2 |};
                 object.reads := [Examples.smallFile];
                 object.readErr := None |}
              {| object.ContentType := "application/pdf"; object.Size := 2 |}
              eq_refl eq_refl eq_refl) as (_ & H1 & _ & H2 & _);
    [discriminate | reflexivity | reflexivity | reflexivity |].
  split; [exact H1 | exact H2].
Defined.

